(** * Thermal-printer receipt engine of the point-of-sale application

    A shallow embedding of the Bluetooth receipt printing path of
    [src/App.tsx] ([printBluetoothDirect], [formatDateForDisplay], the
    [total] memo) together with the data declarations of the types module
    ([PrinterSettings], [CartItem], [BluetoothState]).

    The module [./utils/bluetoothUtils] that [App.tsx] imports (the ESC/POS
    literals, [textToBytes], [getSeparator], [sendDataToPrinter]) is absent
    from the source tree.  The application code is therefore embedded over
    an explicit interface record [bluetoothUtils] and an explicit
    [sendDataToPrinter] parameter; the behaviour the specification
    prescribes for that module is given separately, in definitions whose
    documentation says so. *)

From Stdlib Require Import String Ascii DecimalString.
From Stdlib.Strings Require Import Byte.
From Stdlib Require Import List NArith ZArith Arith Lia Bool.
Import ListNotations.

Set Implicit Arguments.

(** ** Values *)

(** A [Uint8Array]: a sequence of octets. *)
Definition bytes := list byte.

(** A JavaScript string: a sequence of UTF-16 code units. *)
Definition JSString := list N.

(** A string literal of the source text (all of them are ASCII). *)
Definition lit (s : string) : JSString :=
  map N_of_ascii (list_ascii_of_string s).

(** [s.includes(c)] for a one-unit needle. *)
Definition includes (c : N) (s : JSString) : bool := existsb (N.eqb c) s.

(** [s.split(c)] for a one-unit separator: never returns the empty array. *)
Fixpoint split (c : N) (s : JSString) : list JSString :=
  match s with
  | [] => [[]]
  | x :: s' =>
      if N.eqb x c then [] :: split c s'
      else match split c s' with
           | [] => [[x]]
           | p :: ps => (x :: p) :: ps
           end
  end.

(** Interpolation [`${v}`] of an array element that may be [undefined]. *)
Definition interpolate (v : option JSString) : JSString :=
  match v with
  | Some s => s
  | None => lit "undefined"
  end.

(** [formatDateForDisplay] of [App.tsx]. *)
Definition formatDateForDisplay (isoDate : JSString) : JSString :=
  match isoDate with
  | [] => lit "-"
  | _ =>
      if includes 47%N isoDate then isoDate
      else
        let parts := split 45%N isoDate in
        let y := nth_error parts 0 in
        let m := nth_error parts 1 in
        let d := nth_error parts 2 in
        interpolate d ++ lit "/" ++ interpolate m ++ lit "/" ++ interpolate y
  end.

(** ** Data declarations of the types module *)

(** ['58mm' | '80mm'] *)
Inductive PaperWidth : Type := W58mm | W80mm.

(** ['Small' | 'Normal' | 'Large'] *)
Inductive FontSize : Type := Small | Normal | Large.

Inductive PaymentMethod : Type := TUNAI | ONLINE | QR.

Record PrinterSettings : Type := {
  paperWidth : PaperWidth;
  fontSize : FontSize;
  extraFeeds : Z;
  boldHeaders : bool;
  footerText : JSString;
  googleSheetUrl : option JSString;
  googleAppsScriptUrl : option JSString;
  autoSaveInterval : Z;
  autoSync : bool;
  includePhone : bool;
  includeAddress : bool
}.

(** [DEFAULT_PRINTER_SETTINGS] of [App.tsx]. *)
Definition DEFAULT_PRINTER_SETTINGS : PrinterSettings := {|
  paperWidth := W58mm;
  fontSize := Normal;
  extraFeeds := 3;
  boldHeaders := true;
  footerText := lit "Terima Kasih atas urusan anda.";
  googleSheetUrl := Some [];
  googleAppsScriptUrl :=
    Some (lit "https://script.google.com/macros/s/AKfycbyIHqNj2twPWG1vvrHOhe4v2nkWtCQF6TvStKCBDv2CyoTLeT_FuQvGVOvhWuEVlDAr/exec");
  autoSaveInterval := 60;
  autoSync := false;
  includePhone := true;
  includeAddress := true
|}.

Module CartItem.
(** [price] is a JavaScript number; its type is left open. *)
Record t (number : Type) : Type := {
  id : JSString;
  name : JSString;
  price : number
}.
End CartItem.

Module ClientForm.
(** The [clientForm] state of the [App] component. *)
Record t : Type := {
  date : JSString;
  name : JSString;
  phone : JSString;
  address : JSString;
  payment : PaymentMethod
}.
End ClientForm.

(** [BluetoothState]: [device] and [characteristic] are [any | null]. *)
Record BluetoothState (Handle : Type) : Type := {
  device : option Handle;
  characteristic : option Handle;
  status : JSString;
  connected : bool
}.

(** ** The imported printer utilities, as an interface *)

(** What [App.tsx] imports from [./utils/bluetoothUtils], except
    [sendDataToPrinter], which is effectful and is a parameter of the
    program below.  [Buf] is the type of the buffers handed to the
    transport. *)
Record bluetoothUtils (Buf : Type) : Type := {
  ESC_INIT : Buf;
  ESC_ALIGN_CENTER : Buf;
  ESC_ALIGN_LEFT : Buf;
  ESC_BOLD_ON : Buf;
  ESC_BOLD_OFF : Buf;
  ESC_FEED : Buf;
  FONT_SIZE_NORMAL : Buf;
  FONT_SIZE_LARGE : Buf;
  FONT_SIZE_DOUBLE_HEIGHT : Buf;
  textToBytes : JSString -> Buf;
  getSeparator : PaperWidth -> JSString
}.

(** ** Effects of the component *)

(** An awaited call either returns or rejects (throws). *)
Inductive outcome (E A : Type) : Type :=
| Returned (a : A)
| Thrown (e : E).
Arguments Returned {E A} a.
Arguments Thrown {E A} e.

(** What a print run can change: the state behind the characteristic
    (whatever [sendDataToPrinter] acts on), the [alert] boxes shown so far
    (oldest first), and the [isPrintConfirmOpen] flag. *)
Record World (T : Type) : Type := {
  transport : T;
  alerts : list JSString;
  isPrintConfirmOpen : bool
}.

Section App.

Variables Buf Handle T Exn number : Type.

(** The imports. *)
Variable U : bluetoothUtils Buf.
Variable sendDataToPrinter : Handle -> Buf -> T -> outcome Exn unit * T.

(** String conversion of a caught value, as in ["..." + e]. *)
Variable exnToString : Exn -> JSString.

(** [x.toFixed(2)], [a + b] and [0] on JavaScript numbers. *)
Variable toFixed2 : number -> JSString.
Variable plus : number -> number -> number.
Variable zero : number.

(** *** A state and exception monad for [async] code *)

Definition M (A : Type) : Type := World T -> outcome Exn A * World T.

Definition ret {A : Type} (a : A) : M A := fun w => (Returned a, w).

Definition bind {A B : Type} (m : M A) (k : A -> M B) : M B :=
  fun w =>
    match m w with
    | (Returned a, w') => k a w'
    | (Thrown e, w') => (Thrown e, w')
    end.

Notation "m1 ;; m2" := (bind m1 (fun _ => m2))
  (at level 61, right associativity).

(** [await p] for a promise [p] that acts on the transport only. *)
Definition await (p : T -> outcome Exn unit * T) : M unit :=
  fun w =>
    let (o, t') := p (transport w) in
    (o, {| transport := t';
           alerts := alerts w;
           isPrintConfirmOpen := isPrintConfirmOpen w |}).

Definition alert (msg : JSString) : M unit :=
  fun w =>
    (Returned tt, {| transport := transport w;
                     alerts := alerts w ++ [msg];
                     isPrintConfirmOpen := isPrintConfirmOpen w |}).

Definition setIsPrintConfirmOpen (b : bool) : M unit :=
  fun w =>
    (Returned tt, {| transport := transport w;
                     alerts := alerts w;
                     isPrintConfirmOpen := b |}).

(** [if (c) stmt] *)
Definition when (c : bool) (m : M unit) : M unit :=
  if c then m else ret tt.

(** [for (const x of xs) body] *)
Fixpoint forOf {A : Type} (xs : list A) (body : A -> M unit) : M unit :=
  match xs with
  | [] => ret tt
  | x :: xs' => body x ;; forOf xs' body
  end.

(** [for (let i = 0; i < n; i++) body], for an integral bound [n]. *)
Fixpoint times (k : nat) (body : M unit) : M unit :=
  match k with
  | O => ret tt
  | S k' => body ;; times k' body
  end.

Definition forUpTo (n : Z) (body : M unit) : M unit :=
  times (Z.to_nat n) body.

(** [try { body } catch (e) { handler e } finally { fin }] *)
Definition tryCatchFinally {A : Type}
    (body : M A) (handler : Exn -> M A) (fin : M unit) : M A :=
  fun w =>
    let (o, w1) :=
      match body w with
      | (Thrown e, w') => handler e w'
      | r => r
      end in
    match fin w1 with
    | (Returned _, w2) => (o, w2)
    | (Thrown e, w2) => (Thrown e, w2)
    end.

(** *** Component state read by the print path *)

Record AppState : Type := {
  bt : BluetoothState Handle;
  printerSettings : PrinterSettings;
  clientForm : ClientForm.t;
  cart : list (CartItem.t number)
}.

(** [cart.reduce((sum, item) => sum + item.price, 0)] *)
Definition total (st : AppState) : number :=
  fold_left (fun sum item => plus sum (CartItem.price item)) (cart st) zero.

(** Truthiness of a string and [a || b] on strings. *)
Definition truthy (s : JSString) : bool :=
  match s with [] => false | _ => true end.

Definition orElse (a b : JSString) : JSString :=
  if truthy a then a else b.

(** *** [printBluetoothDirect] *)

(** The [try] block, with [char] already bound. *)
Definition printBody (isTest : bool) (st : AppState) (char : Handle)
  : M unit :=
  let printerSettings := printerSettings st in
  let clientForm := clientForm st in
  let sep := getSeparator U (paperWidth printerSettings) in
  await (sendDataToPrinter char (ESC_INIT U)) ;;
  await (sendDataToPrinter char (ESC_ALIGN_CENTER U)) ;;
  when (boldHeaders printerSettings)
    (await (sendDataToPrinter char (ESC_BOLD_ON U))) ;;
  await (sendDataToPrinter char (FONT_SIZE_LARGE U)) ;;
  await (sendDataToPrinter char
           (textToBytes U (lit "HAIRI MUSTAFA ASSOCIATES"))) ;;
  await (sendDataToPrinter char (FONT_SIZE_NORMAL U)) ;;
  when (boldHeaders printerSettings)
    (await (sendDataToPrinter char (ESC_BOLD_OFF U))) ;;
  await (sendDataToPrinter char (textToBytes U (lit "Peguam Syarie & PJS"))) ;;
  await (sendDataToPrinter char (textToBytes U (lit "011-5653 1310"))) ;;
  await (sendDataToPrinter char (textToBytes U sep)) ;;
  await (sendDataToPrinter char (ESC_ALIGN_LEFT U)) ;;
  await (sendDataToPrinter char
           (textToBytes U (lit "Tarikh: " ++
              formatDateForDisplay (ClientForm.date clientForm)))) ;;
  await (sendDataToPrinter char
           (textToBytes U (lit "Nama: " ++
              (if isTest then lit "TEST PRINT"
               else ClientForm.name clientForm)))) ;;
  when (negb isTest && includePhone printerSettings
          && truthy (ClientForm.phone clientForm))
    (await (sendDataToPrinter char
              (textToBytes U (lit "Tel: " ++ ClientForm.phone clientForm)))) ;;
  when (negb isTest && includeAddress printerSettings
          && truthy (ClientForm.address clientForm))
    (await (sendDataToPrinter char
              (textToBytes U
                 (lit "Alamat: " ++ ClientForm.address clientForm)))) ;;
  await (sendDataToPrinter char (textToBytes U sep)) ;;
  (if isTest then
     await (sendDataToPrinter char (textToBytes U (lit "TEST SERVICE"))) ;;
     await (sendDataToPrinter char (textToBytes U (lit "RM 10.00")))
   else
     forOf (cart st) (fun item =>
       await (sendDataToPrinter char (textToBytes U (CartItem.name item))) ;;
       await (sendDataToPrinter char
                (textToBytes U
                   (lit "RM " ++ toFixed2 (CartItem.price item)))))) ;;
  await (sendDataToPrinter char (textToBytes U sep)) ;;
  await (sendDataToPrinter char (ESC_ALIGN_CENTER U)) ;;
  await (sendDataToPrinter char (ESC_BOLD_ON U)) ;;
  await (sendDataToPrinter char (FONT_SIZE_DOUBLE_HEIGHT U)) ;;
  await (sendDataToPrinter char
           (textToBytes U (lit "JUMLAH: RM " ++
              (if isTest then lit "10.00" else toFixed2 (total st))))) ;;
  await (sendDataToPrinter char (FONT_SIZE_NORMAL U)) ;;
  await (sendDataToPrinter char (ESC_BOLD_OFF U)) ;;
  await (sendDataToPrinter char
           (textToBytes U
              (orElse (footerText printerSettings) (lit "Terima Kasih")))) ;;
  forUpTo (extraFeeds printerSettings)
    (await (sendDataToPrinter char (ESC_FEED U))).

Definition printBluetoothDirect (isTest : bool) (st : AppState) : M unit :=
  match characteristic (bt st) with
  | None => alert (lit "Sila sambung Bluetooth dahulu")
  | Some char =>
      tryCatchFinally
        (printBody isTest st char)
        (fun e => alert (lit "Ralat cetakan Bluetooth: " ++ exnToString e))
        (setIsPrintConfirmOpen false)
  end.

(** *** The run as a sequence of buffers *)

(** The sequencing discipline of the [try] block on its own: every buffer
    is awaited before the next is sent, and the first rejection ends the
    sequence. *)
Fixpoint send_sequence (char : Handle) (buffers : list Buf) : M unit :=
  match buffers with
  | [] => ret tt
  | b :: rest =>
      await (sendDataToPrinter char b) ;; send_sequence char rest
  end.

(** The blocks of the receipt, in the order of the statements of
    [printBody]. *)
Definition header (st : AppState) : list Buf :=
  let ps := printerSettings st in
  [ESC_INIT U; ESC_ALIGN_CENTER U]
  ++ (if boldHeaders ps then [ESC_BOLD_ON U] else [])
  ++ [FONT_SIZE_LARGE U;
      textToBytes U (lit "HAIRI MUSTAFA ASSOCIATES");
      FONT_SIZE_NORMAL U]
  ++ (if boldHeaders ps then [ESC_BOLD_OFF U] else [])
  ++ [textToBytes U (lit "Peguam Syarie & PJS");
      textToBytes U (lit "011-5653 1310");
      textToBytes U (getSeparator U (paperWidth ps))].

Definition customerInfo (isTest : bool) (st : AppState) : list Buf :=
  let ps := printerSettings st in
  let cf := clientForm st in
  [ESC_ALIGN_LEFT U;
   textToBytes U (lit "Tarikh: " ++ formatDateForDisplay (ClientForm.date cf));
   textToBytes U (lit "Nama: " ++
      (if isTest then lit "TEST PRINT" else ClientForm.name cf))]
  ++ (if negb isTest && includePhone ps && truthy (ClientForm.phone cf)
      then [textToBytes U (lit "Tel: " ++ ClientForm.phone cf)] else [])
  ++ (if negb isTest && includeAddress ps && truthy (ClientForm.address cf)
      then [textToBytes U (lit "Alamat: " ++ ClientForm.address cf)] else [])
  ++ [textToBytes U (getSeparator U (paperWidth ps))].

Definition itemLines (item : CartItem.t number) : list Buf :=
  [textToBytes U (CartItem.name item);
   textToBytes U (lit "RM " ++ toFixed2 (CartItem.price item))].

Definition lineItems (isTest : bool) (st : AppState) : list Buf :=
  if isTest
  then [textToBytes U (lit "TEST SERVICE"); textToBytes U (lit "RM 10.00")]
  else flat_map itemLines (cart st).

Definition totalBlock (isTest : bool) (st : AppState) : list Buf :=
  [textToBytes U (getSeparator U (paperWidth (printerSettings st)));
   ESC_ALIGN_CENTER U;
   ESC_BOLD_ON U;
   FONT_SIZE_DOUBLE_HEIGHT U;
   textToBytes U (lit "JUMLAH: RM " ++
      (if isTest then lit "10.00" else toFixed2 (total st)));
   FONT_SIZE_NORMAL U;
   ESC_BOLD_OFF U].

Definition footer (st : AppState) : list Buf :=
  [textToBytes U
     (orElse (footerText (printerSettings st)) (lit "Terima Kasih"))].

Definition feed (st : AppState) : list Buf :=
  repeat (ESC_FEED U) (Z.to_nat (extraFeeds (printerSettings st))).

Definition receipt (isTest : bool) (st : AppState) : list Buf :=
  header st ++ customerInfo isTest st ++ lineItems isTest st
  ++ totalBlock isTest st ++ footer st ++ feed st.

End App.

Arguments ret {T Exn A} a _.
Arguments alert {T Exn} msg _.
Arguments setIsPrintConfirmOpen {T Exn} b _.

(** ** Commands *)

(** The closed set of operations a receipt is made of; a buffer of the
    program is either one of the nine imported literals or the image of a
    string under [textToBytes]. *)
Inductive PrinterCommand : Type :=
| Init
| AlignLeft
| AlignCenter
| BoldOn
| BoldOff
| FontNormal
| FontLarge
| FontDoubleHeight
| Text (s : JSString)
| Feed.

Definition is_control (c : PrinterCommand) : bool :=
  match c with
  | Text _ => false
  | _ => true
  end.

(** Modelled from the spec: [encode], which the source tree does not
    contain as a function.  A control variant is sent as its fixed literal,
    [Text s] as [textToBytes s]; the literals themselves come from the
    absent module and stay parameters (the fields of [U]). *)
Definition encode {Buf : Type} (U : bluetoothUtils Buf) (c : PrinterCommand)
  : Buf :=
  match c with
  | Init => ESC_INIT U
  | AlignLeft => ESC_ALIGN_LEFT U
  | AlignCenter => ESC_ALIGN_CENTER U
  | BoldOn => ESC_BOLD_ON U
  | BoldOff => ESC_BOLD_OFF U
  | FontNormal => FONT_SIZE_NORMAL U
  | FontLarge => FONT_SIZE_LARGE U
  | FontDoubleHeight => FONT_SIZE_DOUBLE_HEIGHT U
  | Text s => textToBytes U s
  | Feed => ESC_FEED U
  end.

(** The imports read symbolically: each literal stands for its command and
    [textToBytes] for [Text].  Running the program over this instance
    yields the command sequence it emits. *)
Definition commands (sep : PaperWidth -> JSString)
  : bluetoothUtils PrinterCommand := {|
  ESC_INIT := Init;
  ESC_ALIGN_CENTER := AlignCenter;
  ESC_ALIGN_LEFT := AlignLeft;
  ESC_BOLD_ON := BoldOn;
  ESC_BOLD_OFF := BoldOff;
  ESC_FEED := Feed;
  FONT_SIZE_NORMAL := FontNormal;
  FONT_SIZE_LARGE := FontLarge;
  FONT_SIZE_DOUBLE_HEIGHT := FontDoubleHeight;
  textToBytes := Text;
  getSeparator := sep
|}.

(** *** Formatting state of the printer *)

Inductive FontState : Type := FNormal | FLarge | FDoubleHeight.

Record Formatting : Type := {
  bold : bool;
  font : FontState
}.

Definition initial_formatting : Formatting :=
  {| bold := false; font := FNormal |}.

Definition apply_command (f : Formatting) (c : PrinterCommand) : Formatting :=
  match c with
  | BoldOn => {| bold := true; font := font f |}
  | BoldOff => {| bold := false; font := font f |}
  | FontNormal => {| bold := bold f; font := FNormal |}
  | FontLarge => {| bold := bold f; font := FLarge |}
  | FontDoubleHeight => {| bold := bold f; font := FDoubleHeight |}
  | _ => f
  end.

Definition final_formatting (cs : list PrinterCommand) : Formatting :=
  fold_left apply_command cs initial_formatting.

(** Every occurrence of a command satisfying [opens] is followed, later in
    the sequence, by [closer]. *)
Definition always_closed (opens : PrinterCommand -> bool)
    (closer : PrinterCommand) (cs : list PrinterCommand) : Prop :=
  forall pre c post,
    cs = pre ++ c :: post -> opens c = true -> In closer post.

Definition is_bold_on (c : PrinterCommand) : bool :=
  match c with BoldOn => true | _ => false end.

Definition is_big_font (c : PrinterCommand) : bool :=
  match c with FontLarge | FontDoubleHeight => true | _ => false end.

(** ** Transports to run the program on *)

(** A transport that accepts every buffer and keeps them in order. *)
Definition recorder {Buf Handle Exn : Type}
    (_ : Handle) (b : Buf) (log : list Buf)
  : outcome Exn unit * list Buf :=
  (Returned tt, log ++ [b]).

(** What can be observed of one call of [sendDataToPrinter]. *)
Inductive Event (Buf : Type) : Type :=
| Begin (b : Buf)
| Complete (b : Buf) (ok : bool).
Arguments Begin {Buf} b.
Arguments Complete {Buf} b ok.

Definition succeeded {E A : Type} (o : outcome E A) : bool :=
  match o with Returned _ => true | Thrown _ => false end.

(** Any transport, instrumented to log the start and the end of each
    call. *)
Definition traced {Buf Handle T Exn : Type}
    (send : Handle -> Buf -> T -> outcome Exn unit * T)
    (h : Handle) (b : Buf) (s : T * list (Event Buf))
  : outcome Exn unit * (T * list (Event Buf)) :=
  let (o, t') := send h b (fst s) in
  (o, (t', snd s ++ [Begin b; Complete b (succeeded o)])).

(** A transport that rejects the call number [k] (counted from 0) with
    [e], and accepts the calls before it. *)
Definition failing_at {Buf Handle Exn : Type} (k : nat) (e : Exn)
    (_ : Handle) (b : Buf) (log : list Buf)
  : outcome Exn unit * list Buf :=
  if Nat.eqb (length log) k then (Thrown e, log ++ [b])
  else (Returned tt, log ++ [b]).

(** ** The printer utilities as the specification describes them *)

(** Modelled from the spec: [PaperProfile], the paper stock classes of the
    specification; the absent [getSeparator] is keyed by them. *)
Inductive PaperProfile : Type := Narrow | Wide.

(** The two values of [paperWidth] are the two profiles. *)
Definition profile_of (w : PaperWidth) : PaperProfile :=
  match w with
  | W58mm => Narrow
  | W80mm => Wide
  end.

(** Modelled from the spec: [width], the fixed column count of a profile
    ([getSeparator] of the absent module is where it would live). *)
Definition width (p : PaperProfile) : nat :=
  match p with
  | Narrow => 32
  | Wide => 48
  end.

Definition dash : byte := "-"%byte.

(** Modelled from the spec: [separator], standing for the absent
    [getSeparator]: a dash line of [width p] characters followed by the
    line terminator the device expects.  The specification does not name
    the terminator; it is a parameter. *)
Definition separator (line_terminator : bytes) (p : PaperProfile) : bytes :=
  repeat dash (width p) ++ line_terminator.

(** Modelled from the spec: the single-byte image of one character of a
    [Text] payload, standing for the absent [textToBytes]: its code point
    when that fits one byte, the fallback byte otherwise.  The
    specification leaves the placeholder open; it is a parameter. *)
Definition char_byte (fallback : byte) (c : N) : byte :=
  match Byte.of_N c with
  | Some b => b
  | None => fallback
  end.

(** Modelled from the spec: encoding of a [Text] payload, standing for the
    absent [textToBytes]. *)
Definition text_to_bytes (fallback : byte) (s : JSString) : bytes :=
  map (char_byte fallback) s.

(** The byte-level utilities: the literals of [K], whatever they are, and
    the text encoding above. *)
Definition escpos (fallback : byte) (K : bluetoothUtils bytes)
  : bluetoothUtils bytes := {|
  ESC_INIT := ESC_INIT K;
  ESC_ALIGN_CENTER := ESC_ALIGN_CENTER K;
  ESC_ALIGN_LEFT := ESC_ALIGN_LEFT K;
  ESC_BOLD_ON := ESC_BOLD_ON K;
  ESC_BOLD_OFF := ESC_BOLD_OFF K;
  ESC_FEED := ESC_FEED K;
  FONT_SIZE_NORMAL := FONT_SIZE_NORMAL K;
  FONT_SIZE_LARGE := FONT_SIZE_LARGE K;
  FONT_SIZE_DOUBLE_HEIGHT := FONT_SIZE_DOUBLE_HEIGHT K;
  textToBytes := text_to_bytes fallback;
  getSeparator := getSeparator K
|}.

(** Modelled from the spec: the split of a buffer into sub-writes of at
    most [L] bytes, in order, standing for the inside of the absent
    [sendDataToPrinter].  The fuel is the length of the buffer, which is
    enough for every [L > 0]. *)
Fixpoint chunks_fuel (fuel L : nat) (buffer : bytes) : list bytes :=
  match fuel with
  | O => []
  | S fuel' =>
      match buffer with
      | [] => []
      | _ => firstn L buffer :: chunks_fuel fuel' L (skipn L buffer)
      end
  end.

(** Modelled from the spec: the chunks of a buffer for the limit [L]. *)
Definition split_chunks (L : nat) (buffer : bytes) : list bytes :=
  chunks_fuel (length buffer) L buffer.

(** Modelled from the spec: the writes one buffer is sent as: itself when
    it is within the limit, its chunks otherwise. *)
Definition sub_writes (L : nat) (buffer : bytes) : list bytes :=
  if length buffer <=? L then [buffer] else split_chunks L buffer.

(** [ceil(len / L)] *)
Definition ceil_div (len L : nat) : nat := (len + L - 1) / L.

(** Modelled from the spec: the result of one write to the capability:
    accepted, rejected or timed out, or refused because the device has
    disconnected. *)
Inductive WriteOutcome : Type := Accepted | Rejected | LinkLost.

(** Modelled from the spec: the transport part of the error taxonomy. *)
Inductive TransportError : Type :=
| LinkNotConnected
| ChunkWriteFailed
| LinkDisconnected.

Section Transport.

(** The device behind the characteristic. *)
Variable Dev : Type.
Variable writeValue : Dev -> bytes -> WriteOutcome * Dev.

(** Modelled from the spec: [PrinterLink], the two states of the link. *)
Inductive PrinterLink : Type :=
| Connected (write_capability : Dev)
| Disconnected.

(** Modelled from the spec: the link, together with every write made on
    it so far, oldest first. *)
Record LinkState : Type := {
  link : PrinterLink;
  wire : list (bytes * WriteOutcome)
}.

(** Modelled from the spec: the sub-writes of one buffer, each awaited
    before the next; the first one not accepted disconnects the link and
    ends the call with [ChunkWriteFailed] or [LinkDisconnected]. *)
Fixpoint write_chunks (cs : list bytes) (d : Dev)
    (w : list (bytes * WriteOutcome))
  : outcome TransportError unit * LinkState :=
  match cs with
  | [] => (Returned tt, {| link := Connected d; wire := w |})
  | c :: cs' =>
      match writeValue d c with
      | (Accepted, d') => write_chunks cs' d' (w ++ [(c, Accepted)])
      | (Rejected, _) =>
          (Thrown ChunkWriteFailed,
           {| link := Disconnected; wire := w ++ [(c, Rejected)] |})
      | (LinkLost, _) =>
          (Thrown LinkDisconnected,
           {| link := Disconnected; wire := w ++ [(c, LinkLost)] |})
      end
  end.

(** Modelled from the spec: [send], standing for the absent
    [sendDataToPrinter]: a buffer within the limit [L] is one write, a
    larger one is split; without a link the call fails at once. *)
Definition send (L : nat) (s : LinkState) (buffer : bytes)
  : outcome TransportError unit * LinkState :=
  match link s with
  | Disconnected =>
      (Thrown LinkNotConnected, {| link := Disconnected; wire := wire s |})
  | Connected d =>
      write_chunks (sub_writes L buffer) d (wire s)
  end.

(** [send] in the shape of the import of [App.tsx]; the handle is
    whatever the application holds in [bt.characteristic]. *)
Definition sendDataToPrinter_spec {Handle : Type} (L : nat)
    (_ : Handle) (buffer : bytes) (s : LinkState)
  : outcome TransportError unit * LinkState :=
  send L s buffer.

(** The bytes the device has accepted so far. *)
Definition delivered (s : LinkState) : bytes :=
  concat (map fst (filter (fun cw =>
    match snd cw with Accepted => true | _ => false end) (wire s))).

End Transport.

(** A device that accepts every write. *)
Definition ideal_device (d : unit) (_ : bytes) : WriteOutcome * unit :=
  (Accepted, d).

(** A device that accepts [n] writes and then drops the link. *)
Definition flaky_device (budget : nat) (_ : bytes) : WriteOutcome * nat :=
  match budget with
  | O => (LinkLost, O)
  | S n => (Accepted, n)
  end.

(** The two events of one call that ended with [ok]. *)
Definition call_events {Buf : Type} (ok : bool) (b : Buf)
  : list (Event Buf) :=
  [Begin b; Complete b ok].

(** The trace of a sequence of which the buffers [done] were accepted and
    the first of [rest], if there is one, was rejected. *)
Definition sequential_trace {Buf : Type} (done rest : list Buf)
  : list (Event Buf) :=
  flat_map (call_events true) done
  ++ match rest with
     | [] => []
     | b :: _ => call_events false b
     end.

(** What the user and the caller see of a run, the transport apart. *)
Definition visible {T Exn : Type} (r : outcome Exn unit * World T)
  : outcome Exn unit * list JSString * bool :=
  (fst r, alerts (snd r), isPrintConfirmOpen (snd r)).

(** A world in which nothing has been sent or shown and the print
    confirmation dialog is open. *)
Definition fresh {T : Type} (t : T) : World T :=
  {| transport := t; alerts := []; isPrintConfirmOpen := true |}.

(** ** A concrete print job *)

(** Whole ringgit amounts as numbers, printed with two decimals. *)
Definition ringgit (n : nat) : JSString :=
  lit (NilEmpty.string_of_uint (Nat.to_uint n)) ++ lit ".00".

Definition sample_form : ClientForm.t := {|
  ClientForm.date := lit "2024-01-31";
  ClientForm.name := lit "Ali";
  ClientForm.phone := lit "0123456789";
  ClientForm.address := lit "Ipoh";
  ClientForm.payment := TUNAI
|}.

Definition sample_cart : list (CartItem.t nat) :=
  [ {| CartItem.id := lit "1"; CartItem.name := lit "Wasiat";
       CartItem.price := 150 |};
    {| CartItem.id := lit "2"; CartItem.name := lit "Hibah";
       CartItem.price := 200 |} ].

Definition sample_bt (c : option unit) : BluetoothState unit := {|
  device := c;
  characteristic := c;
  status := lit "Bluetooth";
  connected := match c with Some _ => true | None => false end
|}.

Definition sample_state : AppState unit nat := {|
  bt := sample_bt (Some tt);
  printerSettings := DEFAULT_PRINTER_SETTINGS;
  clientForm := sample_form;
  cart := sample_cart
|}.

(** A separator for the symbolic reading: dashes only. *)
Definition sample_separator (w : PaperWidth) : JSString :=
  repeat 45%N (width (profile_of w)).

(** An accepted write of [c], as it appears on the wire. *)
Definition accepted (c : bytes) : bytes * WriteOutcome := (c, Accepted).

(** The five bytes of ["HELLO"]. *)
Definition hello_bytes : bytes := ["H"; "E"; "L"; "L"; "O"]%byte.

(** The sequence a run hands to a transport that accepts everything. *)
Definition emitted {Buf Handle number : Type} (U : bluetoothUtils Buf)
    (toFixed2 : number -> JSString) (plus : number -> number -> number)
    (zero : number) (isTest : bool) (st : AppState Handle number)
  : list Buf :=
  transport
    (snd (printBluetoothDirect U (@recorder Buf Handle unit) (fun _ => [])
            toFixed2 plus zero isTest st (fresh []))).

(** [st] with other cart contents, customer phone and address, and
    [includePhone] / [includeAddress] settings; everything else is kept. *)
Definition with_customer_data {Handle number : Type}
    (st : AppState Handle number) (cart' : list (CartItem.t number))
    (phone' address' : JSString) (includePhone' includeAddress' : bool)
  : AppState Handle number :=
  let ps := printerSettings st in
  let cf := clientForm st in
  {| bt := bt st;
     printerSettings :=
       {| paperWidth := paperWidth ps;
          fontSize := fontSize ps;
          extraFeeds := extraFeeds ps;
          boldHeaders := boldHeaders ps;
          footerText := footerText ps;
          googleSheetUrl := googleSheetUrl ps;
          googleAppsScriptUrl := googleAppsScriptUrl ps;
          autoSaveInterval := autoSaveInterval ps;
          autoSync := autoSync ps;
          includePhone := includePhone';
          includeAddress := includeAddress' |};
     clientForm :=
       {| ClientForm.date := ClientForm.date cf;
          ClientForm.name := ClientForm.name cf;
          ClientForm.phone := phone';
          ClientForm.address := address';
          ClientForm.payment := ClientForm.payment cf |};
     cart := cart' |}.

(** The sample job without a characteristic. *)
Definition unlinked_state : AppState unit nat := {|
  bt := sample_bt None;
  printerSettings := DEFAULT_PRINTER_SETTINGS;
  clientForm := sample_form;
  cart := sample_cart
|}.

(** The sample job on a transport that rejects call number [k] with an
    error that prints as ["NetworkError"]. *)
Definition failing_run (k : nat)
  : outcome unit unit * World (list PrinterCommand) :=
  printBluetoothDirect (commands sample_separator) (failing_at k tt)
    (fun _ => lit "NetworkError") ringgit Nat.add 0 false sample_state
    (fresh []).

(** Literals to run examples with: the usual ESC/POS codes.  Nothing
    below depends on these values. *)
Definition sample_literals : bluetoothUtils bytes := {|
  ESC_INIT := [x1b; x40]%byte;
  ESC_ALIGN_CENTER := [x1b; x61; x01]%byte;
  ESC_ALIGN_LEFT := [x1b; x61; x00]%byte;
  ESC_BOLD_ON := [x1b; x45; x01]%byte;
  ESC_BOLD_OFF := [x1b; x45; x00]%byte;
  ESC_FEED := [x0a]%byte;
  FONT_SIZE_NORMAL := [x1d; x21; x00]%byte;
  FONT_SIZE_LARGE := [x1d; x21; x11]%byte;
  FONT_SIZE_DOUBLE_HEIGHT := [x1d; x21; x01]%byte;
  textToBytes := text_to_bytes "?"%byte;
  getSeparator := sample_separator
|}.

(** ** More of the component *)

(** [formatDateForInput] of [App.tsx]; [today] is what [getTodayISO()]
    returns at the time of the call. *)
Definition formatDateForInput (today : JSString) (displayDate : JSString)
  : JSString :=
  match displayDate with
  | [] => today
  | _ =>
      if includes 47%N displayDate then
        let parts := split 47%N displayDate in
        let d := nth_error parts 0 in
        let m := nth_error parts 1 in
        let y := nth_error parts 2 in
        interpolate y ++ lit "-" ++ interpolate m ++ lit "-" ++ interpolate d
      else displayDate
  end.

(** The IEEE double nearest to an integer, ties going to the even
    significand, or [None] when that is infinite.  Integers of magnitude up
    to [2^53] are doubles themselves; beyond, 53 significant bits are
    kept. *)
Definition double_of_Z (z : Z) : option Z :=
  let a := Z.abs z in
  if (a <=? 2 ^ 53)%Z then Some z
  else
    let k := (Z.log2 a - 52)%Z in
    let q := (a / 2 ^ k)%Z in
    let r := (a mod 2 ^ k)%Z in
    let half := (2 ^ (k - 1))%Z in
    let q' :=
      if (r <? half)%Z then q
      else if (half <? r)%Z then (q + 1)%Z
      else if Z.even q then q else (q + 1)%Z in
    let t := (q' * 2 ^ k)%Z in
    if (2 ^ 1024 <=? t)%Z then None else Some (Z.sgn z * t)%Z.

(** The period of the draft auto-save timer, in milliseconds:
    [Math.max(5, printerSettings.autoSaveInterval || 60) * 1000], for an
    integral setting; the product is a double, [None] standing for
    [Infinity]. *)
Definition intervalTime (printerSettings : PrinterSettings) : option Z :=
  double_of_Z
    (Z.max 5 (if Z.eqb (autoSaveInterval printerSettings) 0 then 60
              else autoSaveInterval printerSettings) * 1000).

(** [handleBluetoothPrintTrigger] of [App.tsx]: it shows an alert or opens
    the print confirmation dialog. *)
Definition handleBluetoothPrintTrigger {Handle number T : Type}
    (st : AppState Handle number) (w : World T) : World T :=
  match characteristic (bt st) with
  | None =>
      {| transport := transport w;
         alerts := alerts w ++ [lit "Sila sambung Bluetooth dahulu"];
         isPrintConfirmOpen := isPrintConfirmOpen w |}
  | Some _ =>
      if negb (truthy (ClientForm.name (clientForm st))) then
        {| transport := transport w;
           alerts := alerts w ++ [lit "Sila isi maklumat pelanggan"];
           isPrintConfirmOpen := isPrintConfirmOpen w |}
      else if Nat.eqb (length (cart st)) 0 then
        {| transport := transport w;
           alerts := alerts w ++ [lit "Sila pilih servis"];
           isPrintConfirmOpen := isPrintConfirmOpen w |}
      else
        {| transport := transport w;
           alerts := alerts w;
           isPrintConfirmOpen := true |}
  end.

(** A world in which nothing has been sent or shown and the print
    confirmation dialog is closed. *)
Definition idle {T : Type} (t : T) : World T :=
  {| transport := t; alerts := []; isPrintConfirmOpen := false |}.

(** ** Records, cart and synchronisation *)

(** [a === b] on strings. *)
Definition str_eqb (a b : JSString) : bool :=
  if list_eq_dec N.eq_dec a b then true else false.

(** [parts.join(sep)] *)
Definition join (sep : JSString) (parts : list JSString) : JSString :=
  match parts with
  | [] => []
  | p :: ps => p ++ flat_map (fun q => sep ++ q) ps
  end.

Module ClientRecord.
(** [ClientRecord] of the types module.  [cartItems] is absent from
    records that predate the field, which [editClient] allows for. *)
Record t (number : Type) : Type := {
  id : JSString;
  date : JSString;
  name : JSString;
  phone : JSString;
  address : JSString;
  items : JSString;
  total : number;
  payment : PaymentMethod;
  cartItems : option (list (CartItem.t number))
}.
End ClientRecord.

(** The value of [lastSyncStatus] when it is not [null]. *)
Inductive SyncStatus : Type := success | error.

(** One element of [data] in the body posted to the Apps Script. *)
Record SyncRow (number : Type) : Type := {
  row_date : JSString;
  row_name : JSString;
  row_phone : JSString;
  row_address : JSString;
  row_items : JSString;
  row_total : number;
  row_payment : PaymentMethod
}.

(** A [fetch] call: the address and the object that is serialised into
    the body. *)
Record Request (number : Type) : Type := {
  url : JSString;
  timestamp : JSString;
  isAutoSync : bool;
  data : list (SyncRow number)
}.

(** A [setTimeout] callback of the component.  The callback of
    [saveRecord] calls the [syncToGoogleSheet] of the render [saveRecord]
    belongs to, so it reads the settings and the records of that render:
    they are kept with the task. *)
Inductive Task (number : Type) : Type :=
| AutoSync (seenSettings : PrinterSettings)
    (seenClients : list (ClientRecord.t number))
| ClearSyncStatus.
Arguments ClearSyncStatus {number}.

Module Component.
(** The state of the [App] component that the record, cart and
    synchronisation handlers read and write, with the browser state they
    touch: [localStorage], the alerts shown, the pending timers (delay in
    milliseconds and task) and the requests made so far. *)
Record t (Handle number : Type) : Type := {
  app : AppState Handle number;
  clients : list (ClientRecord.t number);
  editId : option JSString;
  aiSummary : JSString;
  legalTips : list JSString;
  isAiLoading : bool;
  isTipsLoading : bool;
  isTipsModalOpen : bool;
  isSyncing : bool;
  lastSyncStatus : option SyncStatus;
  lastSyncedAt : option JSString;
  localStorage : list (JSString * JSString);
  shown : list JSString;
  timers : list (Z * Task number);
  requests : list (Request number)
}.
End Component.

Section Handlers.

Variables Handle number : Type.
Variable plus : number -> number -> number.
Variable zero : number.

Local Abbreviation State := (Component.t Handle number).

(** State setters: each one replaces a single piece of state. *)
Definition setCart (cart' : list (CartItem.t number)) (c : State)
  : State :=
  {| Component.app := {| bt := bt (Component.app c);
          printerSettings := printerSettings (Component.app c);
          clientForm := clientForm (Component.app c);
          cart := cart' |};
     Component.clients := Component.clients c;
     Component.editId := Component.editId c;
     Component.aiSummary := Component.aiSummary c;
     Component.legalTips := Component.legalTips c;
     Component.isAiLoading := Component.isAiLoading c;
     Component.isTipsLoading := Component.isTipsLoading c;
     Component.isTipsModalOpen := Component.isTipsModalOpen c;
     Component.isSyncing := Component.isSyncing c;
     Component.lastSyncStatus := Component.lastSyncStatus c;
     Component.lastSyncedAt := Component.lastSyncedAt c;
     Component.localStorage := Component.localStorage c;
     Component.shown := Component.shown c;
     Component.timers := Component.timers c;
     Component.requests := Component.requests c |}.

Definition setClientForm (form : ClientForm.t) (c : State)
  : State :=
  {| Component.app := {| bt := bt (Component.app c);
          printerSettings := printerSettings (Component.app c);
          clientForm := form;
          cart := cart (Component.app c) |};
     Component.clients := Component.clients c;
     Component.editId := Component.editId c;
     Component.aiSummary := Component.aiSummary c;
     Component.legalTips := Component.legalTips c;
     Component.isAiLoading := Component.isAiLoading c;
     Component.isTipsLoading := Component.isTipsLoading c;
     Component.isTipsModalOpen := Component.isTipsModalOpen c;
     Component.isSyncing := Component.isSyncing c;
     Component.lastSyncStatus := Component.lastSyncStatus c;
     Component.lastSyncedAt := Component.lastSyncedAt c;
     Component.localStorage := Component.localStorage c;
     Component.shown := Component.shown c;
     Component.timers := Component.timers c;
     Component.requests := Component.requests c |}.

Definition setClients (clients' : list (ClientRecord.t number)) (c : State)
  : State :=
  {| Component.app := Component.app c;
     Component.clients := clients';
     Component.editId := Component.editId c;
     Component.aiSummary := Component.aiSummary c;
     Component.legalTips := Component.legalTips c;
     Component.isAiLoading := Component.isAiLoading c;
     Component.isTipsLoading := Component.isTipsLoading c;
     Component.isTipsModalOpen := Component.isTipsModalOpen c;
     Component.isSyncing := Component.isSyncing c;
     Component.lastSyncStatus := Component.lastSyncStatus c;
     Component.lastSyncedAt := Component.lastSyncedAt c;
     Component.localStorage := Component.localStorage c;
     Component.shown := Component.shown c;
     Component.timers := Component.timers c;
     Component.requests := Component.requests c |}.

Definition setEditId (e : option JSString) (c : State)
  : State :=
  {| Component.app := Component.app c;
     Component.clients := Component.clients c;
     Component.editId := e;
     Component.aiSummary := Component.aiSummary c;
     Component.legalTips := Component.legalTips c;
     Component.isAiLoading := Component.isAiLoading c;
     Component.isTipsLoading := Component.isTipsLoading c;
     Component.isTipsModalOpen := Component.isTipsModalOpen c;
     Component.isSyncing := Component.isSyncing c;
     Component.lastSyncStatus := Component.lastSyncStatus c;
     Component.lastSyncedAt := Component.lastSyncedAt c;
     Component.localStorage := Component.localStorage c;
     Component.shown := Component.shown c;
     Component.timers := Component.timers c;
     Component.requests := Component.requests c |}.

Definition setAiSummary (s : JSString) (c : State)
  : State :=
  {| Component.app := Component.app c;
     Component.clients := Component.clients c;
     Component.editId := Component.editId c;
     Component.aiSummary := s;
     Component.legalTips := Component.legalTips c;
     Component.isAiLoading := Component.isAiLoading c;
     Component.isTipsLoading := Component.isTipsLoading c;
     Component.isTipsModalOpen := Component.isTipsModalOpen c;
     Component.isSyncing := Component.isSyncing c;
     Component.lastSyncStatus := Component.lastSyncStatus c;
     Component.lastSyncedAt := Component.lastSyncedAt c;
     Component.localStorage := Component.localStorage c;
     Component.shown := Component.shown c;
     Component.timers := Component.timers c;
     Component.requests := Component.requests c |}.

Definition setLegalTips (tips : list JSString) (c : State)
  : State :=
  {| Component.app := Component.app c;
     Component.clients := Component.clients c;
     Component.editId := Component.editId c;
     Component.aiSummary := Component.aiSummary c;
     Component.legalTips := tips;
     Component.isAiLoading := Component.isAiLoading c;
     Component.isTipsLoading := Component.isTipsLoading c;
     Component.isTipsModalOpen := Component.isTipsModalOpen c;
     Component.isSyncing := Component.isSyncing c;
     Component.lastSyncStatus := Component.lastSyncStatus c;
     Component.lastSyncedAt := Component.lastSyncedAt c;
     Component.localStorage := Component.localStorage c;
     Component.shown := Component.shown c;
     Component.timers := Component.timers c;
     Component.requests := Component.requests c |}.

Definition setIsAiLoading (b : bool) (c : State)
  : State :=
  {| Component.app := Component.app c;
     Component.clients := Component.clients c;
     Component.editId := Component.editId c;
     Component.aiSummary := Component.aiSummary c;
     Component.legalTips := Component.legalTips c;
     Component.isAiLoading := b;
     Component.isTipsLoading := Component.isTipsLoading c;
     Component.isTipsModalOpen := Component.isTipsModalOpen c;
     Component.isSyncing := Component.isSyncing c;
     Component.lastSyncStatus := Component.lastSyncStatus c;
     Component.lastSyncedAt := Component.lastSyncedAt c;
     Component.localStorage := Component.localStorage c;
     Component.shown := Component.shown c;
     Component.timers := Component.timers c;
     Component.requests := Component.requests c |}.

Definition setIsTipsLoading (b : bool) (c : State)
  : State :=
  {| Component.app := Component.app c;
     Component.clients := Component.clients c;
     Component.editId := Component.editId c;
     Component.aiSummary := Component.aiSummary c;
     Component.legalTips := Component.legalTips c;
     Component.isAiLoading := Component.isAiLoading c;
     Component.isTipsLoading := b;
     Component.isTipsModalOpen := Component.isTipsModalOpen c;
     Component.isSyncing := Component.isSyncing c;
     Component.lastSyncStatus := Component.lastSyncStatus c;
     Component.lastSyncedAt := Component.lastSyncedAt c;
     Component.localStorage := Component.localStorage c;
     Component.shown := Component.shown c;
     Component.timers := Component.timers c;
     Component.requests := Component.requests c |}.

Definition setIsTipsModalOpen (b : bool) (c : State)
  : State :=
  {| Component.app := Component.app c;
     Component.clients := Component.clients c;
     Component.editId := Component.editId c;
     Component.aiSummary := Component.aiSummary c;
     Component.legalTips := Component.legalTips c;
     Component.isAiLoading := Component.isAiLoading c;
     Component.isTipsLoading := Component.isTipsLoading c;
     Component.isTipsModalOpen := b;
     Component.isSyncing := Component.isSyncing c;
     Component.lastSyncStatus := Component.lastSyncStatus c;
     Component.lastSyncedAt := Component.lastSyncedAt c;
     Component.localStorage := Component.localStorage c;
     Component.shown := Component.shown c;
     Component.timers := Component.timers c;
     Component.requests := Component.requests c |}.

Definition setIsSyncing (b : bool) (c : State)
  : State :=
  {| Component.app := Component.app c;
     Component.clients := Component.clients c;
     Component.editId := Component.editId c;
     Component.aiSummary := Component.aiSummary c;
     Component.legalTips := Component.legalTips c;
     Component.isAiLoading := Component.isAiLoading c;
     Component.isTipsLoading := Component.isTipsLoading c;
     Component.isTipsModalOpen := Component.isTipsModalOpen c;
     Component.isSyncing := b;
     Component.lastSyncStatus := Component.lastSyncStatus c;
     Component.lastSyncedAt := Component.lastSyncedAt c;
     Component.localStorage := Component.localStorage c;
     Component.shown := Component.shown c;
     Component.timers := Component.timers c;
     Component.requests := Component.requests c |}.

Definition setLastSyncStatus (s : option SyncStatus) (c : State)
  : State :=
  {| Component.app := Component.app c;
     Component.clients := Component.clients c;
     Component.editId := Component.editId c;
     Component.aiSummary := Component.aiSummary c;
     Component.legalTips := Component.legalTips c;
     Component.isAiLoading := Component.isAiLoading c;
     Component.isTipsLoading := Component.isTipsLoading c;
     Component.isTipsModalOpen := Component.isTipsModalOpen c;
     Component.isSyncing := Component.isSyncing c;
     Component.lastSyncStatus := s;
     Component.lastSyncedAt := Component.lastSyncedAt c;
     Component.localStorage := Component.localStorage c;
     Component.shown := Component.shown c;
     Component.timers := Component.timers c;
     Component.requests := Component.requests c |}.

Definition setLastSyncedAt (t : option JSString) (c : State)
  : State :=
  {| Component.app := Component.app c;
     Component.clients := Component.clients c;
     Component.editId := Component.editId c;
     Component.aiSummary := Component.aiSummary c;
     Component.legalTips := Component.legalTips c;
     Component.isAiLoading := Component.isAiLoading c;
     Component.isTipsLoading := Component.isTipsLoading c;
     Component.isTipsModalOpen := Component.isTipsModalOpen c;
     Component.isSyncing := Component.isSyncing c;
     Component.lastSyncStatus := Component.lastSyncStatus c;
     Component.lastSyncedAt := t;
     Component.localStorage := Component.localStorage c;
     Component.shown := Component.shown c;
     Component.timers := Component.timers c;
     Component.requests := Component.requests c |}.

Definition setStorage (st : list (JSString * JSString)) (c : State)
  : State :=
  {| Component.app := Component.app c;
     Component.clients := Component.clients c;
     Component.editId := Component.editId c;
     Component.aiSummary := Component.aiSummary c;
     Component.legalTips := Component.legalTips c;
     Component.isAiLoading := Component.isAiLoading c;
     Component.isTipsLoading := Component.isTipsLoading c;
     Component.isTipsModalOpen := Component.isTipsModalOpen c;
     Component.isSyncing := Component.isSyncing c;
     Component.lastSyncStatus := Component.lastSyncStatus c;
     Component.lastSyncedAt := Component.lastSyncedAt c;
     Component.localStorage := st;
     Component.shown := Component.shown c;
     Component.timers := Component.timers c;
     Component.requests := Component.requests c |}.

(** [alert(msg)] in a handler. *)
Definition show (msg : JSString) (c : State)
  : State :=
  {| Component.app := Component.app c;
     Component.clients := Component.clients c;
     Component.editId := Component.editId c;
     Component.aiSummary := Component.aiSummary c;
     Component.legalTips := Component.legalTips c;
     Component.isAiLoading := Component.isAiLoading c;
     Component.isTipsLoading := Component.isTipsLoading c;
     Component.isTipsModalOpen := Component.isTipsModalOpen c;
     Component.isSyncing := Component.isSyncing c;
     Component.lastSyncStatus := Component.lastSyncStatus c;
     Component.lastSyncedAt := Component.lastSyncedAt c;
     Component.localStorage := Component.localStorage c;
     Component.shown := Component.shown c ++ [msg];
     Component.timers := Component.timers c;
     Component.requests := Component.requests c |}.

(** [setTimeout(task, delay)] *)
Definition setTimeout (task : Task number) (delay : Z) (c : State)
  : State :=
  {| Component.app := Component.app c;
     Component.clients := Component.clients c;
     Component.editId := Component.editId c;
     Component.aiSummary := Component.aiSummary c;
     Component.legalTips := Component.legalTips c;
     Component.isAiLoading := Component.isAiLoading c;
     Component.isTipsLoading := Component.isTipsLoading c;
     Component.isTipsModalOpen := Component.isTipsModalOpen c;
     Component.isSyncing := Component.isSyncing c;
     Component.lastSyncStatus := Component.lastSyncStatus c;
     Component.lastSyncedAt := Component.lastSyncedAt c;
     Component.localStorage := Component.localStorage c;
     Component.shown := Component.shown c;
     Component.timers := Component.timers c ++ [(delay, task)];
     Component.requests := Component.requests c |}.

(** The request log grows by one when [fetch] is called. *)
Definition logRequest (r : Request number) (c : State)
  : State :=
  {| Component.app := Component.app c;
     Component.clients := Component.clients c;
     Component.editId := Component.editId c;
     Component.aiSummary := Component.aiSummary c;
     Component.legalTips := Component.legalTips c;
     Component.isAiLoading := Component.isAiLoading c;
     Component.isTipsLoading := Component.isTipsLoading c;
     Component.isTipsModalOpen := Component.isTipsModalOpen c;
     Component.isSyncing := Component.isSyncing c;
     Component.lastSyncStatus := Component.lastSyncStatus c;
     Component.lastSyncedAt := Component.lastSyncedAt c;
     Component.localStorage := Component.localStorage c;
     Component.shown := Component.shown c;
     Component.timers := Component.timers c;
     Component.requests := Component.requests c ++ [r] |}.

(** [localStorage.removeItem(key)] and [localStorage.setItem(key, v)]. *)
Definition removeItem (key : JSString) (st : list (JSString * JSString))
  : list (JSString * JSString) :=
  filter (fun kv => negb (str_eqb (fst kv) key)) st.

Definition setItem (key v : JSString) (st : list (JSString * JSString))
  : list (JSString * JSString) :=
  (key, v) :: removeItem key st.

(** Truthiness of [editId], a string or [null]. *)
Definition editing (e : option JSString) : option JSString :=
  match e with
  | Some s => if truthy s then Some s else None
  | None => None
  end.

(** [addToCart] of [App.tsx]; [now] is [Date.now().toString()]. *)
Definition addToCart (now : JSString) (service : CartItem.t number)
    (c : State) : State :=
  setCart (cart (Component.app c)
           ++ [{| CartItem.id := now;
                  CartItem.name := CartItem.name service;
                  CartItem.price := CartItem.price service |}]) c.

(** [removeFromCart] of [App.tsx]. *)
Definition removeFromCart (id : JSString) (c : State) : State :=
  setCart (filter (fun x => negb (str_eqb (CartItem.id x) id))
             (cart (Component.app c))) c.

(** [resetForm] of [App.tsx]; [today] is [getTodayISO()]. *)
Definition resetForm (today : JSString) (c : State) : State :=
  let c := setClientForm {| ClientForm.date := today;
                            ClientForm.name := [];
                            ClientForm.phone := [];
                            ClientForm.address := [];
                            ClientForm.payment := TUNAI |} c in
  let c := setCart [] c in
  let c := setEditId None c in
  let c := setAiSummary [] c in
  let c := setLegalTips [] c in
  setStorage (removeItem (lit "hm_order_draft") (Component.localStorage c)) c.

(** The record [saveRecord] builds from the form and the cart. *)
Definition recordOf (now : JSString) (c : State) : ClientRecord.t number :=
  let form := clientForm (Component.app c) in
  {| ClientRecord.id :=
       match editing (Component.editId c) with
       | Some e => e
       | None => now
       end;
     ClientRecord.date := formatDateForDisplay (ClientForm.date form);
     ClientRecord.name := ClientForm.name form;
     ClientRecord.phone := ClientForm.phone form;
     ClientRecord.address := ClientForm.address form;
     ClientRecord.items :=
       join (lit ", ") (map (@CartItem.name number) (cart (Component.app c)));
     ClientRecord.total := total plus zero (Component.app c);
     ClientRecord.payment := ClientForm.payment form;
     ClientRecord.cartItems := Some (cart (Component.app c)) |}.

(** [saveRecord] of [App.tsx]. *)
Definition saveRecord (now today : JSString) (c : State) : State :=
  if negb (truthy (ClientForm.name (clientForm (Component.app c)))) then
    show (lit "Sila masukkan nama pelanggan") c
  else if Nat.eqb (length (cart (Component.app c))) 0 then
    show (lit "Sila pilih sekurang-kurangnya satu servis") c
  else
    let record := recordOf now c in
    let (updatedClients, c1) :=
      match editing (Component.editId c) with
      | Some e =>
          (map (fun r => if str_eqb (ClientRecord.id r) e then record else r)
             (Component.clients c),
           show (lit "Rekod berjaya dikemaskini.") c)
      | None =>
          (record :: Component.clients c,
           show (lit "Rekod baru berjaya disimpan.") c)
      end in
    let c2 := setClients updatedClients c1 in
    let c3 := resetForm today c2 in
    if autoSync (printerSettings (Component.app c)) then
      setTimeout
        (AutoSync (printerSettings (Component.app c)) (Component.clients c))
        500 c3
    else c3.

(** [editClient] of [App.tsx] (the scrolling into view is left out). *)
Definition editClient (today : JSString) (record : ClientRecord.t number)
    (c : State) : State :=
  let c := setEditId (Some (ClientRecord.id record)) c in
  let c := setClientForm
             {| ClientForm.date :=
                  formatDateForInput today (ClientRecord.date record);
                ClientForm.name := ClientRecord.name record;
                ClientForm.phone := ClientRecord.phone record;
                ClientForm.address := ClientRecord.address record;
                ClientForm.payment := ClientRecord.payment record |} c in
  setCart (match ClientRecord.cartItems record with
           | Some items => items
           | None => []
           end) c.

(** [deleteClient] of [App.tsx]; [confirmed] is the answer to
    [window.confirm]. *)
Definition deleteClient (confirmed : bool) (today : JSString)
    (id : JSString) (c : State) : State :=
  if confirmed then
    let c1 :=
      setClients
        (filter (fun r => negb (str_eqb (ClientRecord.id r) id))
           (Component.clients c)) c in
    match Component.editId c with
    | Some e => if str_eqb e id then resetForm today c1 else c1
    | None => c1
    end
  else c.

(** The rows posted by [syncToGoogleSheet]. *)
Definition syncRow (r : ClientRecord.t number) : SyncRow number :=
  {| row_date := ClientRecord.date r;
     row_name := ClientRecord.name r;
     row_phone := ClientRecord.phone r;
     row_address := ClientRecord.address r;
     row_items := ClientRecord.items r;
     row_total := ClientRecord.total r;
     row_payment := ClientRecord.payment r |}.

(** [syncToGoogleSheet] of [App.tsx], as a closure: it reads
    [printerSettings] and [clients] of the render it was created in and
    applies its state updates to the current state [c].  [fetch] tells
    whether the request resolves or rejects; [stamp] is
    [new Date().toISOString()] and [clock] the formatted local time, both
    taken when they are evaluated.  Only [fetch] is taken to be able to
    throw inside the [try] block; console output is not part of the
    state. *)
Definition syncWith (fetch : Request number -> bool)
    (stamp clock : JSString) (isAuto : bool)
    (printerSettings : PrinterSettings)
    (clients : list (ClientRecord.t number)) (c : State) : State :=
  match googleAppsScriptUrl printerSettings with
  | None =>
      if isAuto then c
      else show (lit "Sila masukkan URL Apps Script dalam tetapan.") c
  | Some [] =>
      if isAuto then c
      else show (lit "Sila masukkan URL Apps Script dalam tetapan.") c
  | Some address =>
      if Nat.eqb (length clients) 0 then
        if isAuto then c
        else show (lit "Tiada data rekod untuk disegerakkan.") c
      else
        let c := setIsSyncing true c in
        let c := setLastSyncStatus None c in
        let request :=
          {| url := address;
             timestamp := stamp;
             isAutoSync := isAuto;
             data := map syncRow clients |} in
        let c := logRequest request c in
        let c :=
          if fetch request then
            let c := setLastSyncedAt (Some clock) c in
            let c := setStorage
                       (setItem (lit "hm_last_sync_time") clock
                          (Component.localStorage c)) c in
            let c := setLastSyncStatus (Some success) c in
            let c := setTimeout ClearSyncStatus 5000 c in
            if isAuto then c
            else show (lit "Penyegerakan berjaya dihantar ke Google Sheets.")
                   c
          else
            let c := setLastSyncStatus (Some error) c in
            if isAuto then c
            else show
                   (lit "Gagal menyegerakkan data. Sila semak URL Apps Script anda.")
                   c in
        setIsSyncing false c
  end.

(** [syncToGoogleSheet] called from the current render (the buttons). *)
Definition syncToGoogleSheet (fetch : Request number -> bool)
    (stamp clock : JSString) (isAuto : bool) (c : State) : State :=
  syncWith fetch stamp clock isAuto (printerSettings (Component.app c))
    (Component.clients c) c.

(** A timer fires: its callback runs on the current state. *)
Definition runTask (fetch : Request number -> bool)
    (stamp clock : JSString) (task : Task number) (c : State) : State :=
  match task with
  | AutoSync seenSettings seenClients =>
      syncWith fetch stamp clock true seenSettings seenClients c
  | ClearSyncStatus => setLastSyncStatus None c
  end.

End Handlers.

(** The record that is being edited exists: when [editId] is a non-empty
    string, some record carries it as its id. *)
Definition editing_names_a_record {Handle number : Type}
    (c : Component.t Handle number) : Prop :=
  match editing (Component.editId c) with
  | Some e => In e (map (@ClientRecord.id number) (Component.clients c))
  | None => True
  end.

(** An empty desk with the default settings, and one with a customer and
    two services in the cart. *)
Definition sample_component : Component.t unit nat := {|
  Component.app := sample_state;
  Component.clients := [];
  Component.editId := None;
  Component.aiSummary := [];
  Component.legalTips := [];
  Component.isAiLoading := false;
  Component.isTipsLoading := false;
  Component.isTipsModalOpen := false;
  Component.isSyncing := false;
  Component.lastSyncStatus := None;
  Component.lastSyncedAt := None;
  Component.localStorage := [(lit "hm_order_draft", lit "{}")];
  Component.shown := [];
  Component.timers := [];
  Component.requests := []
|}.

(** ** Export and the AI helpers *)

(** The global replace of [exportCSV] that doubles every double-quote
    character (code 34) of a field. *)
Definition escapeQuotes (s : JSString) : JSString :=
  flat_map (fun ch => if N.eqb ch 34 then [34%N; 34%N] else [ch]) s.

(** The string value of a [PaymentMethod]. *)
Definition paymentLabel (p : PaymentMethod) : JSString :=
  match p with
  | TUNAI => lit "Tunai"
  | ONLINE => lit "Online Transfer"
  | QR => lit "DuitNow QR"
  end.

(** One row of [exportCSV]: name, address and items are quoted, the other
    columns are copied as they are. *)
Definition csvRow {number : Type} (toFixed2 : number -> JSString)
    (c : ClientRecord.t number) : list JSString :=
  [ClientRecord.date c;
   [34%N] ++ escapeQuotes (ClientRecord.name c) ++ [34%N];
   orElse (ClientRecord.phone c) (lit "-");
   [34%N] ++ escapeQuotes (orElse (ClientRecord.address c) []) ++ [34%N];
   [34%N] ++ escapeQuotes (ClientRecord.items c) ++ [34%N];
   toFixed2 (ClientRecord.total c);
   paymentLabel (ClientRecord.payment c)].

(** [csvContent] of [exportCSV]. *)
Definition csvContent {number : Type} (toFixed2 : number -> JSString)
    (clients : list (ClientRecord.t number)) : JSString :=
  join [10%N]
    (join (lit ",")
       [lit "Tarikh"; lit "Nama"; lit "Telefon"; lit "Alamat"; lit "Servis";
        lit "Jumlah"; lit "Bayaran"]
     :: map (fun c => join (lit ",") (csvRow toFixed2 c)) clients).

(** One [generateContent] call of the AI service: the prompt, and whether
    a JSON answer with a [tips] array is asked for. *)
Record GenRequest : Type := {
  contents : JSString;
  wantsJson : bool
}.

(** What [generateLegalAdvice] returns: one of its own [{ tips: [...] }]
    objects, or whatever [JSON.parse] made of the answer. *)
Inductive Advice (Value : Type) : Type :=
| TipsObject (tips : list JSString)
| Parsed (v : Value).
Arguments TipsObject {Value} tips.
Arguments Parsed {Value} v.

Section Gemini.

Variables Exn Value : Type.

(** The client library: building the client and calling
    [generateContent] either yield [response.text], which may be
    undefined, or throw. *)
Variable generateContent : GenRequest -> outcome Exn (option JSString).

(** [JSON.parse] *)
Variable JSON_parse : JSString -> outcome Exn Value.

(** [process.env.API_KEY] is set to a non-empty string. *)
Definition hasKey (apiKey : option JSString) : bool :=
  match apiKey with
  | Some k => truthy k
  | None => false
  end.

(** [analyzeLegalServices] of [services/geminiService.ts]: the result and
    the requests made. *)
Definition analyzeLegalServices (apiKey : option JSString)
    (services : list JSString) (clientInfo : JSString)
  : outcome Exn (option JSString) * list GenRequest :=
  let attempt : outcome Exn (option JSString) * list GenRequest :=
    if negb (hasKey apiKey) then
      (Returned
         (Some (lit "Sila masukkan API KEY untuk menggunakan fungsi AI.")),
       [])
    else
      let request :=
        {| contents :=
             lit "Sila berikan rumusan ringkas (maksimum 3 ayat) tentang prosedur perundangan untuk perkhidmatan berikut: "
             ++ join (lit ", ") services
             ++ lit ". Maklumat pelanggan: " ++ clientInfo
             ++ lit ". Bahasa: Bahasa Melayu.";
           wantsJson := false |} in
      (generateContent request, [request]) in
  match attempt with
  | (Thrown _, made) =>
      (Returned
         (Some (lit "Maaf, AI gagal menjana rumusan buat masa ini. Sila cuba sebentar lagi.")),
       made)
  | r => r
  end.

(** [generateLegalAdvice] of [services/geminiService.ts]. *)
Definition generateLegalAdvice (apiKey : option JSString)
    (services : list JSString)
  : outcome Exn (Advice Value) * list GenRequest :=
  let attempt : outcome Exn (Advice Value) * list GenRequest :=
    if negb (hasKey apiKey) then
      (Returned
         (TipsObject
            [lit "Sila hubungi pentadbir sistem untuk mengaktifkan fungsi AI."]),
       [])
    else
      let request :=
        {| contents :=
             lit "Anda adalah peguam syarie pakar. Berikan 3 tips perundangan yang sangat ringkas, padat dan bermanfaat untuk pelanggan yang mengambil servis: "
             ++ join (lit ", ") services
             ++ lit ". Fokus kepada langkah persediaan atau pesanan penting.";
           wantsJson := true |} in
      match generateContent request with
      | Thrown e => (Thrown e, [request])
      | Returned None => (Returned (TipsObject []), [request])
      | Returned (Some text) =>
          if negb (truthy text) then (Returned (TipsObject []), [request])
          else
            match JSON_parse text with
            | Returned v => (Returned (Parsed v), [request])
            | Thrown _ =>
                (Returned (TipsObject [lit "Gagal memproses respons AI."]),
                 [request])
            end
      end in
  match attempt with
  | (Thrown _, made) =>
      (Returned
         (TipsObject
            [lit "Sila pastikan semua dokumen asal dibawa semasa perjumpaan.";
             lit "Catat setiap tarikh penting yang dimaklumkan oleh pejabat peguam.";
             lit "Sediakan salinan kad pengenalan dan dokumen berkaitan secukupnya."]),
       made)
  | r => r
  end.

Variables Handle number : Type.

(** [advice && advice.tips && advice.tips.length > 0] on a parsed value:
    [tipsOf v] is [Some tips] when the test holds, [tips] being
    [v.tips]. *)
Variable tipsOf : Value -> option (list JSString).

Definition usableTips (advice : Advice Value) : option (list JSString) :=
  match advice with
  | TipsObject [] => None
  | TipsObject tips => Some tips
  | Parsed v => tipsOf v
  end.

(** [handleAiAnalyze] of [App.tsx], for any [analyze] it awaits; when
    that rejects, so does the handler, in the state reached so far. *)
Definition handleAiAnalyze
    (analyze : list JSString -> JSString -> outcome Exn (option JSString))
    (c : Component.t Handle number)
  : outcome Exn unit * Component.t Handle number :=
  if Nat.eqb (length (cart (Component.app c))) 0 then (Returned tt, c)
  else
    let c := setIsAiLoading true c in
    match analyze (map (@CartItem.name number) (cart (Component.app c)))
            (lit "Pelanggan: "
             ++ ClientForm.name (clientForm (Component.app c))) with
    | Thrown e => (Thrown e, c)
    | Returned summary =>
        let c := setAiSummary
                   (match summary with
                    | Some s => orElse s []
                    | None => []
                    end) c in
        (Returned tt, setIsAiLoading false c)
    end.

(** [handleGenerateTips] of [App.tsx], for any [advise] it awaits. *)
Definition handleGenerateTips
    (advise : list JSString -> outcome Exn (Advice Value))
    (c : Component.t Handle number) : Component.t Handle number :=
  if Nat.eqb (length (cart (Component.app c))) 0 then
    show (lit "Pilih sekurang-kurangnya satu servis untuk menjana tips.") c
  else
    let c := setIsTipsLoading true c in
    let c :=
      match advise (map (@CartItem.name number) (cart (Component.app c))) with
      | Returned advice =>
          match usableTips advice with
          | Some tips => setIsTipsModalOpen true (setLegalTips tips c)
          | None => show (lit "AI tidak dapat menjana tips buat masa ini.") c
          end
      | Thrown _ => show (lit "Ralat semasa menjana tips.") c
      end in
    setIsTipsLoading false c.

End Gemini.

(** [st] with another customer phone number, and with another customer
    address; everything else is kept. *)
Definition with_phone {Handle number : Type} (st : AppState Handle number)
    (phone' : JSString) : AppState Handle number :=
  {| bt := bt st;
     printerSettings := printerSettings st;
     clientForm :=
       {| ClientForm.date := ClientForm.date (clientForm st);
          ClientForm.name := ClientForm.name (clientForm st);
          ClientForm.phone := phone';
          ClientForm.address := ClientForm.address (clientForm st);
          ClientForm.payment := ClientForm.payment (clientForm st) |};
     cart := cart st |}.

Definition with_address {Handle number : Type} (st : AppState Handle number)
    (address' : JSString) : AppState Handle number :=
  {| bt := bt st;
     printerSettings := printerSettings st;
     clientForm :=
       {| ClientForm.date := ClientForm.date (clientForm st);
          ClientForm.name := ClientForm.name (clientForm st);
          ClientForm.phone := ClientForm.phone (clientForm st);
          ClientForm.address := address';
          ClientForm.payment := ClientForm.payment (clientForm st) |};
     cart := cart st |}.

(** The sample job with the phone and address lines switched off. *)
Definition discreet_state : AppState unit nat := {|
  bt := sample_bt (Some tt);
  printerSettings :=
    {| paperWidth := W80mm; fontSize := Normal; extraFeeds := 1;
       boldHeaders := false; footerText := [];
       googleSheetUrl := None; googleAppsScriptUrl := None;
       autoSaveInterval := 60; autoSync := false;
       includePhone := false; includeAddress := false |};
  clientForm := sample_form;
  cart := sample_cart
|}.

(** A saved record, and desks that hold two of them: one with nothing
    being edited, one with the first record open for editing. *)
Definition sample_record (id name : string) : ClientRecord.t nat := {|
  ClientRecord.id := lit id;
  ClientRecord.date := lit "31/01/2024";
  ClientRecord.name := lit name;
  ClientRecord.phone := lit "0123456789";
  ClientRecord.address := [];
  ClientRecord.items := lit "Wasiat, Hibah";
  ClientRecord.total := 350;
  ClientRecord.payment := QR;
  ClientRecord.cartItems := Some sample_cart
|}.

Definition stocked_component : Component.t unit nat :=
  setClients [sample_record "77" "Siti"; sample_record "5" "Abu"]
    sample_component.

Definition busy_component : Component.t unit nat :=
  setEditId (Some (lit "77")) stocked_component.

(** * Properties *)

(** ** The program as a sequence of awaited sends *)

Section AppFacts.

Variables Buf Handle T Exn number : Type.
Variable U : bluetoothUtils Buf.
Variable sdp : Handle -> Buf -> T -> outcome Exn unit * T.
Variable exnToString : Exn -> JSString.
Variable toFixed2 : number -> JSString.
Variable plus : number -> number -> number.
Variable zero : number.

Local Abbreviation seq_of := (send_sequence sdp).
Local Notation "m1 ;; m2" := (bind m1 (fun _ => m2))
  (at level 61, right associativity).

Lemma bind_assoc_at (A B C : Type) (m : M T Exn A) (k : A -> M T Exn B)
    (k' : B -> M T Exn C) (w : World T) :
  bind (bind m k) k' w = bind m (fun a => bind (k a) k') w.
Proof.
  unfold bind. destruct (m w) as [[a|e] w']; reflexivity.
Qed.

Lemma bind_cong_at (A B : Type) (m : M T Exn A) (k1 k2 : A -> M T Exn B)
    (w : World T) :
  (forall a w', k1 a w' = k2 a w') -> bind m k1 w = bind m k2 w.
Proof.
  intros H. unfold bind. destruct (m w) as [[a|e] w']; auto.
Qed.

Lemma step_send (char : Handle) (b : Buf) (rest : M T Exn unit)
    (bufs : list Buf) :
  (forall w, rest w = seq_of char bufs w) ->
  forall w, (await (sdp char b) ;; rest) w = seq_of char (b :: bufs) w.
Proof.
  intros H w. cbn [send_sequence]. apply bind_cong_at. intros _ w'. apply H.
Qed.

Lemma step_when (c : bool) (char : Handle) (b : Buf)
    (rest : M T Exn unit) (bufs : list Buf) :
  (forall w, rest w = seq_of char bufs w) ->
  forall w, (when c (await (sdp char b)) ;; rest) w
            = seq_of char ((if c then [b] else []) ++ bufs) w.
Proof.
  intros H. destruct c; cbn [when app].
  - apply step_send, H.
  - intros w. unfold bind, ret. apply H.
Qed.

Lemma step_forOf (A : Type) (char : Handle) (f g : A -> Buf)
    (xs : list A) (rest : M T Exn unit) (bufs : list Buf) :
  (forall w, rest w = seq_of char bufs w) ->
  forall w,
    (forOf xs (fun x => await (sdp char (f x)) ;; await (sdp char (g x)))
     ;; rest) w
    = seq_of char (flat_map (fun x => [f x; g x]) xs ++ bufs) w.
Proof.
  intros H. induction xs as [|x xs IH]; intros w.
  - cbn [forOf flat_map app]. unfold bind, ret. apply H.
  - cbn [forOf flat_map app]. rewrite bind_assoc_at, bind_assoc_at.
    cbn [send_sequence]. apply bind_cong_at. intros _ w1.
    apply bind_cong_at. intros _ w2. apply IH.
Qed.

Lemma step_nested (m1 m2 rest : M T Exn unit) (target : M T Exn unit) :
  (forall w, (m1 ;; m2 ;; rest) w = target w) ->
  forall w, ((m1 ;; m2) ;; rest) w = target w.
Proof.
  intros H w. rewrite bind_assoc_at. apply H.
Qed.

Lemma times_sequence (char : Handle) (b : Buf) (k : nat) :
  forall w, times k (await (sdp char b)) w = seq_of char (repeat b k) w.
Proof.
  induction k as [|k IH]; intros w.
  - reflexivity.
  - cbn [times repeat send_sequence]. apply bind_cong_at. intros _ w'.
    apply IH.
Qed.

Lemma send_sequence_app (char : Handle) (xs ys : list Buf) (w : World T) :
  seq_of char (xs ++ ys) w = (seq_of char xs ;; seq_of char ys) w.
Proof.
  revert w. induction xs as [|x xs IH]; intros w.
  - reflexivity.
  - cbn [app send_sequence]. rewrite bind_assoc_at.
    apply bind_cong_at. intros _ w'. apply IH.
Qed.

(** The [try] block is the sequence [receipt], sent in order. *)
Lemma printBody_sequence (isTest : bool) (st : AppState Handle number)
    (char : Handle) (w : World T) :
  printBody U sdp toFixed2 plus zero isTest st char w
  = seq_of char (receipt U toFixed2 plus zero isTest st) w.
Proof.
  revert w.
  unfold printBody, receipt, header, customerInfo, lineItems, totalBlock,
    footer, feed, forUpTo, itemLines.
  rewrite <- !app_assoc. cbn [app].
  destruct isTest; cbn [app];
    repeat first
      [ apply times_sequence
      | apply step_send
      | apply step_when
      | apply step_nested
      | apply (step_forOf char
                 (fun item => textToBytes U (CartItem.name item))
                 (fun item => textToBytes U
                    (lit "RM " ++ toFixed2 (CartItem.price item)))) ].
Qed.

End AppFacts.

(** ** Order of the writes *)

Section Ordering.

Variables Buf Handle T Exn number : Type.
Variable U : bluetoothUtils Buf.
Variable sdp : Handle -> Buf -> T -> outcome Exn unit * T.
Variable exnToString : Exn -> JSString.
Variable toFixed2 : number -> JSString.
Variable plus : number -> number -> number.
Variable zero : number.

(** A sequence of sends changes neither the alerts nor the dialog flag. *)
Lemma send_sequence_frame (char : Handle) (bufs : list Buf) (w : World T) :
  alerts (snd (send_sequence sdp char bufs w)) = alerts w
  /\ isPrintConfirmOpen (snd (send_sequence sdp char bufs w))
     = isPrintConfirmOpen w.
Proof.
  revert w. induction bufs as [|b bufs IH]; intros w.
  - split; reflexivity.
  - cbn [send_sequence]. unfold bind, await.
    destruct (sdp char b (transport w)) as [[[]|e] t'].
    + destruct (IH {| transport := t'; alerts := alerts w;
                      isPrintConfirmOpen := isPrintConfirmOpen w |})
        as [Ha Hp].
      split; assumption.
    + split; reflexivity.
Qed.

Lemma await_traced (char : Handle) (b : Buf)
    (w : World (T * list (Event Buf))) :
  await (traced sdp char b) w
  = let (o, t') := sdp char b (fst (transport w)) in
    (o, {| transport :=
             (t', snd (transport w) ++ call_events (succeeded o) b);
           alerts := alerts w;
           isPrintConfirmOpen := isPrintConfirmOpen w |}).
Proof.
  unfold await, traced.
  destruct (sdp char b (fst (transport w))) as [o t']. reflexivity.
Qed.

(** The trace of a sequence of sends over an instrumented transport. *)
Lemma send_sequence_trace (char : Handle) (bufs : list Buf)
    (w : World (T * list (Event Buf))) :
  exists done rest,
    bufs = done ++ rest
    /\ snd (transport (snd (send_sequence (traced sdp) char bufs w)))
       = snd (transport w) ++ sequential_trace done rest
    /\ (rest = [] <->
        fst (send_sequence (traced sdp) char bufs w) = Returned tt).
Proof.
  revert w. induction bufs as [|b bufs IH]; intros w.
  - exists [], []. cbn. rewrite app_nil_r. repeat split; reflexivity.
  - cbn [send_sequence]. unfold bind. rewrite await_traced.
    destruct (sdp char b (fst (transport w))) as [[[]|e] t'] eqn:Hs.
    + match goal with
      | |- context [send_sequence _ _ _ ?w1] =>
          destruct (IH w1) as (done & rest & Hb & Htr & Hok)
      end.
      exists (b :: done), rest. split; [cbn; congruence|].
      split.
      * rewrite Htr. cbn [transport snd succeeded]. unfold sequential_trace.
        cbn [flat_map call_events app]. rewrite <- !app_assoc. reflexivity.
      * exact Hok.
    + exists [], (b :: bufs). split; [reflexivity|]. split.
      * reflexivity.
      * split; intros H; discriminate H.
Qed.

(** In such a trace a write begins only when all writes before it, and
    no others, have completed with success. *)
Lemma sequential_trace_begin (done rest : list Buf)
    (pre : list (Event Buf)) (b : Buf) (post : list (Event Buf)) :
  sequential_trace done rest = pre ++ Begin b :: post ->
  exists n,
    nth_error (done ++ rest) n = Some b
    /\ pre = flat_map (call_events true) (firstn n (done ++ rest)).
Proof.
  revert pre. induction done as [|x done IH]; intros pre H.
  - unfold sequential_trace in H. cbn in H.
    destruct rest as [|r rest].
    + destruct pre; discriminate H.
    + destruct pre as [|e1 pre].
      * injection H as Hb _. subst. exists 0. split; reflexivity.
      * destruct pre as [|e2 pre]; [discriminate H|].
        destruct pre; discriminate H.
  - unfold sequential_trace in H. cbn in H.
    destruct pre as [|e1 pre].
    + injection H as Hb _. subst. exists 0. split; reflexivity.
    + destruct pre as [|e2 pre]; [discriminate H|].
      injection H as H1 H2 H. subst e1 e2.
      destruct (IH pre H) as (n & Hn & Hp).
      exists (S n). split; [exact Hn|].
      cbn. now rewrite Hp.
Qed.

(** What a run does to the transport is what the sequence [receipt]
    does to it. *)
Lemma printBluetoothDirect_transport (isTest : bool)
    (st : AppState Handle number) (char : Handle) (w : World T) :
  characteristic (bt st) = Some char ->
  transport
    (snd (printBluetoothDirect U sdp exnToString toFixed2 plus zero
            isTest st w))
  = transport
      (snd (send_sequence sdp char
              (receipt U toFixed2 plus zero isTest st) w)).
Proof.
  intros Hc. unfold printBluetoothDirect. rewrite Hc.
  unfold tryCatchFinally. rewrite printBody_sequence.
  destruct (send_sequence sdp char _ w) as [[[]|e] w']; reflexivity.
Qed.

End Ordering.

(** C1: the writes follow the caller's sequence.  For every sequence of
    buffers and every transport, the instrumented trace of the awaited
    sends consists of the completed calls of a prefix [done] of the
    sequence, in order, followed at most by the one rejected call; the
    prefix is the whole sequence exactly when the sequence returns; and
    whenever a write begins, the trace before it is exactly the successful
    completion of all earlier buffers, one call each.  The transport effect
    of [printBluetoothDirect] on a connected characteristic is that of this
    sequence on [receipt]. *)
Theorem writes_follow_the_sequence
    (Buf Handle T Exn number : Type) (U : bluetoothUtils Buf)
    (sdp : Handle -> Buf -> T -> outcome Exn unit * T)
    (exnToString : Exn -> JSString) (toFixed2 : number -> JSString)
    (plus : number -> number -> number) (zero : number)
    (char : Handle) (bufs : list Buf) (isTest : bool)
    (st : AppState Handle number) (w : World (T * list (Event Buf))) :
  characteristic (bt st) = Some char ->
  (exists done rest,
     bufs = done ++ rest
     /\ snd (transport (snd (send_sequence (traced sdp) char bufs w)))
        = snd (transport w) ++ sequential_trace done rest
     /\ (rest = [] <->
         fst (send_sequence (traced sdp) char bufs w) = Returned tt)
     /\ (forall pre b post,
           sequential_trace done rest = pre ++ Begin b :: post ->
           exists n,
             nth_error bufs n = Some b
             /\ pre = flat_map (call_events true) (firstn n bufs)))
  /\ transport
       (snd (printBluetoothDirect U (traced sdp) exnToString toFixed2 plus
               zero isTest st w))
     = transport
         (snd (send_sequence (traced sdp) char
                 (receipt U toFixed2 plus zero isTest st) w)).
Proof.
  intros Hc. split.
  - destruct (send_sequence_trace sdp char bufs w)
      as (done & rest & Hb & Htr & Hok).
    exists done, rest. repeat split; try apply Hok; try assumption.
    intros pre b post H. subst bufs.
    eapply sequential_trace_begin. exact H.
  - apply printBluetoothDirect_transport. exact Hc.
Qed.

Lemma writes_follow_the_sequence_witness :
  characteristic (bt sample_state) = Some tt
  /\ transport
       (snd (printBluetoothDirect (commands sample_separator)
               (traced (@recorder PrinterCommand unit unit))
               (fun _ : unit => []) ringgit Nat.add 0 false sample_state
               (fresh ([], []))))
     = transport
         (snd (send_sequence (traced (@recorder PrinterCommand unit unit)) tt
                 (receipt (commands sample_separator) ringgit Nat.add 0
                    false sample_state)
                 (fresh ([], [])))).
Proof.
  split.
  - reflexivity.
  - apply (writes_follow_the_sequence (commands sample_separator)
             (@recorder PrinterCommand unit unit) (fun _ : unit => [])
             ringgit Nat.add 0 (char := tt) [Init; Feed] false sample_state
             (fresh ([], []))).
    reflexivity.
Defined.

(** ** Splitting a buffer *)

Lemma ceil_div_step (len L : nat) :
  0 < L -> 0 < len -> ceil_div len L = S (ceil_div (len - L) L).
Proof.
  intros HL Hlen. unfold ceil_div.
  replace (len + L - 1) with ((len - 1) + 1 * L) by lia.
  rewrite Nat.div_add by lia.
  destruct (Nat.le_gt_cases len L) as [Hle|Hgt].
  - replace (len - L) with 0 by lia.
    rewrite (Nat.div_small (len - 1) L) by lia.
    rewrite (Nat.div_small (0 + L - 1) L) by lia. reflexivity.
  - replace (len - L + L - 1) with (len - 1) by lia. lia.
Qed.

Lemma ceil_div_bounds (len L : nat) :
  0 < L -> len <= L * ceil_div len L /\ L * ceil_div len L < len + L.
Proof.
  intros HL. unfold ceil_div.
  pose proof (Nat.div_mod_eq (len + L - 1) L) as E.
  pose proof (Nat.mod_upper_bound (len + L - 1) L ltac:(lia)) as B.
  split; nia.
Qed.

Lemma chunks_fuel_correct (fuel L : nat) (buffer : bytes) :
  0 < L -> length buffer <= fuel ->
  concat (chunks_fuel fuel L buffer) = buffer
  /\ Forall (fun c => length c <= L) (chunks_fuel fuel L buffer)
  /\ length (chunks_fuel fuel L buffer) = ceil_div (length buffer) L.
Proof.
  intros HL. revert buffer.
  induction fuel as [|fuel IH]; intros buffer Hfuel.
  - destruct buffer as [|x buffer]; [|cbn in Hfuel; lia].
    cbn. repeat split; [constructor|].
    unfold ceil_div. cbn. symmetry. apply Nat.div_small. lia.
  - destruct buffer as [|x buffer].
    + cbn. repeat split; [constructor|].
      unfold ceil_div. cbn. symmetry. apply Nat.div_small. lia.
    + cbn [chunks_fuel].
      set (b := x :: buffer) in *.
      assert (Hlen : 0 < length b) by (subst b; cbn; lia).
      assert (Hskip : length (skipn L b) <= fuel).
      { rewrite length_skipn. lia. }
      destruct (IH (skipn L b) Hskip) as (Hcat & Hall & Hcount).
      repeat split.
      * cbn [concat]. rewrite Hcat. apply firstn_skipn.
      * constructor; [|exact Hall]. rewrite length_firstn. lia.
      * cbn [length]. rewrite Hcount, length_skipn.
        symmetry. apply ceil_div_step; assumption.
Qed.

Section TransportFacts.

Variable Dev : Type.
Variable writeValue : Dev -> bytes -> WriteOutcome * Dev.

(** The writes of one call: a prefix of the chunks, all of them when the
    call returns. *)
Lemma write_chunks_wire (cs : list bytes) (d : Dev)
    (w : list (bytes * WriteOutcome)) :
  exists attempted n,
    wire (snd (write_chunks writeValue cs d w)) = w ++ attempted
    /\ map fst attempted = firstn n cs
    /\ (fst (write_chunks writeValue cs d w) = Returned tt ->
        attempted = map accepted cs).
Proof.
  revert d w. induction cs as [|c cs IH]; intros d w.
  - exists [], 0. cbn. rewrite app_nil_r. repeat split; reflexivity.
  - cbn [write_chunks].
    destruct (writeValue d c) as [[| |] d'].
    + destruct (IH d' (w ++ [(c, Accepted)])) as (att & n & Hw & Hp & Hr).
      exists ((c, Accepted) :: att), (S n).
      rewrite Hw, <- app_assoc. cbn. rewrite Hp.
      repeat split. intros H. now rewrite (Hr H).
    + exists [(c, Rejected)], 1. cbn. repeat split.
      intros H; discriminate H.
    + exists [(c, LinkLost)], 1. cbn. repeat split.
      intros H; discriminate H.
Qed.

(** On a device that accepts every write, every chunk is written. *)
Lemma write_chunks_accepting (cs : list bytes) (d : Dev)
    (w : list (bytes * WriteOutcome)) :
  (forall d' c, fst (writeValue d' c) = Accepted) ->
  fst (write_chunks writeValue cs d w) = Returned tt
  /\ wire (snd (write_chunks writeValue cs d w)) = w ++ map accepted cs
  /\ exists d', link (snd (write_chunks writeValue cs d w)) = Connected d'.
Proof.
  intros Hacc. revert d w. induction cs as [|c cs IH]; intros d w.
  - cbn. rewrite app_nil_r. repeat split. now exists d.
  - cbn [write_chunks]. pose proof (Hacc d c) as Hc.
    destruct (writeValue d c) as [o d']. cbn in Hc. subst o.
    destruct (IH d' (w ++ [(c, Accepted)])) as (Hr & Hw & Hl).
    rewrite Hw, <- app_assoc. repeat split; assumption.
Qed.

End TransportFacts.

(** C2: a buffer longer than the chunk limit [L] is split into exactly
    [ceil(len / L)] chunks (the count lies in the one-[L] window that
    defines the ceiling), each of at most [L] bytes, whose concatenation in
    order is the buffer; [send] writes them in that order, one after the
    other: what it has written is always a prefix of the chunk list, all of
    it when the call returns, and on a device that accepts every write the
    call returns with every chunk on the wire. *)
Theorem send_splits_large_buffers
    (Dev : Type) (writeValue : Dev -> bytes -> WriteOutcome * Dev)
    (L : nat) (d : Dev) (w : list (bytes * WriteOutcome)) (buffer : bytes) :
  0 < L -> L < length buffer ->
  let cs := split_chunks L buffer in
  let r := send writeValue L {| link := Connected d; wire := w |} buffer in
  length cs = ceil_div (length buffer) L
  /\ (length buffer <= L * length cs /\ L * length cs < length buffer + L)
  /\ Forall (fun c => length c <= L) cs
  /\ concat cs = buffer
  /\ (exists attempted n,
        wire (snd r) = w ++ attempted
        /\ map fst attempted = firstn n cs
        /\ (fst r = Returned tt -> attempted = map accepted cs))
  /\ ((forall d' c, fst (writeValue d' c) = Accepted) ->
      fst r = Returned tt /\ wire (snd r) = w ++ map accepted cs).
Proof.
  intros HL Hbig cs r.
  destruct (@chunks_fuel_correct (length buffer) L buffer HL (le_n _))
    as (Hcat & Hall & Hcount).
  fold (split_chunks L buffer) in Hcat, Hall, Hcount. fold cs in Hcat, Hall, Hcount.
  assert (Hr : r = write_chunks writeValue cs d w).
  { subst r. unfold send, sub_writes. cbn [link wire].
    destruct (Nat.leb_spec (length buffer) L) as [Hle|_]; [lia|reflexivity]. }
  split; [exact Hcount|].
  split; [rewrite Hcount; apply ceil_div_bounds; exact HL|].
  split; [exact Hall|]. split; [exact Hcat|]. split.
  - rewrite Hr. apply write_chunks_wire.
  - intros Hacc. rewrite Hr.
    destruct (write_chunks_accepting writeValue cs d w Hacc) as (H1 & H2 & _).
    split; assumption.
Qed.

Lemma send_splits_large_buffers_witness :
  0 < 2 /\ 2 < length hello_bytes
  /\ length (split_chunks 2 hello_bytes) = ceil_div (length hello_bytes) 2.
Proof.
  split; [lia|]. split; [cbn; lia|].
  exact (proj1 (send_splits_large_buffers ideal_device (L := 2) tt []
                  hello_bytes ltac:(lia) ltac:(cbn; lia))).
Defined.

(** ** Failure of a write *)

Section Failure.

Variables Buf Handle T Exn number : Type.
Variable U : bluetoothUtils Buf.
Variable sdp : Handle -> Buf -> T -> outcome Exn unit * T.
Variable exnToString : Exn -> JSString.
Variable toFixed2 : number -> JSString.
Variable plus : number -> number -> number.
Variable zero : number.

(** A sequence that returns has completed every call. *)
Lemma send_sequence_trace_returned (char : Handle) (bufs : list Buf)
    (w w1 : World (T * list (Event Buf))) :
  send_sequence (traced sdp) char bufs w = (Returned tt, w1) ->
  snd (transport w1)
  = snd (transport w) ++ flat_map (call_events true) bufs.
Proof.
  intros H.
  destruct (send_sequence_trace sdp char bufs w)
    as (done & rest & Hb & Htr & Hok).
  rewrite H in Htr, Hok. cbn [fst snd] in Htr, Hok.
  assert (rest = []) by (apply Hok; reflexivity). subst rest.
  rewrite app_nil_r in Hb. subst done.
  rewrite Htr. unfold sequential_trace. now rewrite app_nil_r.
Qed.

(** A rejected call in the middle of a sequence ends it there. *)
Lemma send_sequence_rejected (char : Handle) (done : list Buf) (b : Buf)
    (rest : list Buf) (w w1 : World T) (e : Exn) (t2 : T) :
  send_sequence sdp char done w = (Returned tt, w1) ->
  sdp char b (transport w1) = (Thrown e, t2) ->
  send_sequence sdp char (done ++ b :: rest) w
  = (Thrown e, {| transport := t2;
                  alerts := alerts w;
                  isPrintConfirmOpen := isPrintConfirmOpen w |}).
Proof.
  intros Hdone Hb.
  rewrite send_sequence_app. unfold bind at 1. rewrite Hdone.
  cbn [send_sequence]. unfold bind, await. rewrite Hb.
  destruct (send_sequence_frame sdp char done w) as [Ha Hp].
  rewrite Hdone in Ha, Hp. cbn [snd] in Ha, Hp. now rewrite Ha, Hp.
Qed.

End Failure.

(** C3, as the code has it: when the transport rejects the buffer [b] at
    index [length done] of the receipt, after accepting the buffers [done]
    before it, the run has sent every buffer of [done] once and in order,
    has attempted [b] once, attempts nothing after it and retries nothing;
    it reports the rejection by one alert that carries the text of the
    caught value, closes the confirmation dialog and returns normally. *)
Theorem failure_stops_the_run
    (Buf Handle T Exn number : Type) (U : bluetoothUtils Buf)
    (sdp : Handle -> Buf -> T -> outcome Exn unit * T)
    (exnToString : Exn -> JSString) (toFixed2 : number -> JSString)
    (plus : number -> number -> number) (zero : number)
    (isTest : bool) (st : AppState Handle number) (char : Handle)
    (done : list Buf) (b : Buf) (rest : list Buf)
    (w w1 : World (T * list (Event Buf))) (e : Exn)
    (t2 : T * list (Event Buf)) :
  characteristic (bt st) = Some char ->
  receipt U toFixed2 plus zero isTest st = done ++ b :: rest ->
  send_sequence (traced sdp) char done w = (Returned tt, w1) ->
  traced sdp char b (transport w1) = (Thrown e, t2) ->
  printBluetoothDirect U (traced sdp) exnToString toFixed2 plus zero
    isTest st w
  = (Returned tt,
     {| transport := t2;
        alerts := alerts w
                  ++ [lit "Ralat cetakan Bluetooth: " ++ exnToString e];
        isPrintConfirmOpen := false |})
  /\ snd t2
     = snd (transport w)
       ++ flat_map (call_events true) done ++ call_events false b.
Proof.
  intros Hc Hrec Hdone Hb. split.
  - unfold printBluetoothDirect. rewrite Hc. unfold tryCatchFinally.
    rewrite printBody_sequence, Hrec.
    rewrite (send_sequence_rejected (traced sdp) char done b rest w Hdone Hb).
    reflexivity.
  - rewrite app_assoc.
    rewrite <- (send_sequence_trace_returned sdp char done w Hdone).
    unfold traced in Hb.
    destruct (sdp char b (fst (transport w1))) as [o t']. 
    injection Hb as Ho Ht. subst o t2. reflexivity.
Qed.

Lemma failure_stops_the_run_witness :
  let U := commands sample_separator in
  let sdp := traced (@failing_at PrinterCommand unit unit 2 tt) in
  let w := fresh (@nil PrinterCommand, @nil (Event PrinterCommand)) in
  let bufs := receipt U ringgit Nat.add 0 false sample_state in
  let w1 := snd (send_sequence sdp tt (firstn 2 bufs) w) in
  let t2 := snd (sdp tt BoldOn (transport w1)) in
  characteristic (bt sample_state) = Some tt
  /\ bufs = firstn 2 bufs ++ BoldOn :: skipn 3 bufs
  /\ send_sequence sdp tt (firstn 2 bufs) w = (Returned tt, w1)
  /\ sdp tt BoldOn (transport w1) = (Thrown tt, t2)
  /\ snd t2 = [Begin Init; Complete Init true;
               Begin AlignCenter; Complete AlignCenter true;
               Begin BoldOn; Complete BoldOn false].
Proof.
  intros U sdp w bufs w1 t2.
  assert (H1 : characteristic (bt sample_state) = Some tt) by reflexivity.
  assert (H2 : bufs = firstn 2 bufs ++ BoldOn :: skipn 3 bufs)
    by reflexivity.
  assert (H3 : send_sequence sdp tt (firstn 2 bufs) w = (Returned tt, w1))
    by reflexivity.
  assert (H4 : sdp tt BoldOn (transport w1) = (Thrown tt, t2))
    by reflexivity.
  split; [exact H1|]. split; [exact H2|]. split; [exact H3|].
  split; [exact H4|].
  exact (proj2 (@failure_stops_the_run _ _ _ _ _ U
                  (@failing_at PrinterCommand unit unit 2 tt)
                  (fun _ : unit => lit "NetworkError") ringgit Nat.add 0
                  false sample_state tt (firstn 2 bufs) BoldOn
                  (skipn 3 bufs) w w1 tt t2 H1 H2 H3 H4)).
Defined.

(** C3, as stated, fails on the code: the sample job rejected at call 1
    and the same job rejected at call 3 both return normally and show the
    same single alert, so nothing the caller gets back identifies the
    index of the command that failed. *)
Lemma failure_index_not_reported :
  fst (failing_run 1) = Returned tt
  /\ alerts (snd (failing_run 1))
     = [lit "Ralat cetakan Bluetooth: NetworkError"]
  /\ ~ (exists index_of : outcome unit unit * list JSString * bool -> nat,
          index_of (visible (failing_run 1)) = 1
          /\ index_of (visible (failing_run 3)) = 3).
Proof.
  split; [reflexivity|]. split; [reflexivity|].
  intros (index_of & H1 & H3).
  assert (E : visible (failing_run 1) = visible (failing_run 3))
    by reflexivity.
  rewrite E in H1. rewrite H1 in H3. discriminate H3.
Qed.

(** ** Without a link *)

(** Without a characteristic the function stops at its first statement. *)
Lemma printBluetoothDirect_unlinked
    (Buf Handle T Exn number : Type) (U : bluetoothUtils Buf)
    (sdp : Handle -> Buf -> T -> outcome Exn unit * T)
    (exnToString : Exn -> JSString) (toFixed2 : number -> JSString)
    (plus : number -> number -> number) (zero : number)
    (isTest : bool) (st : AppState Handle number) (w : World T) :
  characteristic (bt st) = None ->
  printBluetoothDirect U sdp exnToString toFixed2 plus zero isTest st w
  = (Returned tt,
     {| transport := transport w;
        alerts := alerts w ++ [lit "Sila sambung Bluetooth dahulu"];
        isPrintConfirmOpen := isPrintConfirmOpen w |}).
Proof.
  intros Hc. unfold printBluetoothDirect. rewrite Hc. reflexivity.
Qed.

(** C7, as the code has it: without a characteristic
    [printBluetoothDirect] stops at its first statement, for a customer
    print and for a test print alike and whatever the transport would do.
    Nothing is handed to the transport: its state is untouched and, on an
    instrumented transport, no call is logged.  The one effect is the
    alert that asks to connect first; the call then returns normally, so
    no error value reaches the caller, and since the [try] block is never
    entered the confirmation dialog is left as it was. *)
Theorem not_connected_alerts_and_returns
    (Buf Handle T Exn number : Type) (U : bluetoothUtils Buf)
    (sdp : Handle -> Buf -> T -> outcome Exn unit * T)
    (exnToString : Exn -> JSString) (toFixed2 : number -> JSString)
    (plus : number -> number -> number) (zero : number)
    (isTest : bool) (st : AppState Handle number) (w : World T)
    (v : World (T * list (Event Buf))) :
  characteristic (bt st) = None ->
  printBluetoothDirect U sdp exnToString toFixed2 plus zero isTest st w
  = (Returned tt,
     {| transport := transport w;
        alerts := alerts w ++ [lit "Sila sambung Bluetooth dahulu"];
        isPrintConfirmOpen := isPrintConfirmOpen w |})
  /\ snd (transport
            (snd (printBluetoothDirect U (traced sdp) exnToString toFixed2
                    plus zero isTest st v)))
     = snd (transport v)
  /\ (forall e,
        fst (printBluetoothDirect U sdp exnToString toFixed2 plus zero
               isTest st w) <> Thrown e).
Proof.
  intros Hc. split; [|split].
  - apply printBluetoothDirect_unlinked. exact Hc.
  - rewrite (printBluetoothDirect_unlinked _ _ _ _ _ _ _ _ _ Hc).
    reflexivity.
  - intros e. rewrite (printBluetoothDirect_unlinked _ _ _ _ _ _ _ _ _ Hc).
    discriminate.
Qed.

Lemma not_connected_alerts_and_returns_witness :
  characteristic (bt unlinked_state) = None
  /\ printBluetoothDirect (commands sample_separator)
       (@recorder PrinterCommand unit unit) (fun _ : unit => []) ringgit
       Nat.add 0 false unlinked_state (fresh [])
     = (Returned tt,
        {| transport := [];
           alerts := [lit "Sila sambung Bluetooth dahulu"];
           isPrintConfirmOpen := true |}).
Proof.
  split; [reflexivity|].
  exact (proj1 (@not_connected_alerts_and_returns _ _ _ _ _
                  (commands sample_separator)
                  (@recorder PrinterCommand unit unit) (fun _ : unit => [])
                  ringgit Nat.add 0 false unlinked_state (fresh [])
                  (fresh ([], [])) eq_refl)).
Defined.

(** C7, as stated, fails on the code: the sample job without a
    characteristic, run over the chunking [send] on a disconnected link,
    does not fail with [LinkNotConnected]; the call returns normally
    after one alert (and has written nothing). *)
Lemma not_connected_is_not_an_error :
  let r :=
    printBluetoothDirect sample_literals
      (sendDataToPrinter_spec ideal_device 512)
      (fun _ : TransportError => lit "LinkNotConnected") ringgit Nat.add 0
      false unlinked_state
      (fresh {| link := @Disconnected unit; wire := [] |}) in
  fst r <> Thrown LinkNotConnected
  /\ fst r = Returned tt
  /\ alerts (snd r) = [lit "Sila sambung Bluetooth dahulu"]
  /\ wire (transport (snd r)) = [].
Proof.
  cbv zeta. split; [discriminate|]. repeat split.
Qed.

(** ** The encoder *)

(** C4: for both profiles the separator is a line of exactly [width]
    dashes, 32 for the narrow (58mm) and 48 for the wide (80mm) stock,
    followed by the line terminator and nothing else. *)
Theorem separator_has_profile_width (line_terminator : bytes)
    (p : PaperProfile) :
  width Narrow = 32 /\ width Wide = 48
  /\ profile_of W58mm = Narrow /\ profile_of W80mm = Wide
  /\ firstn (width p) (separator line_terminator p) = repeat dash (width p)
  /\ skipn (width p) (separator line_terminator p) = line_terminator
  /\ length (separator line_terminator p) = width p + length line_terminator
  /\ separator line_terminator Narrow = repeat dash 32 ++ line_terminator
  /\ separator line_terminator Wide = repeat dash 48 ++ line_terminator.
Proof.
  repeat split; try reflexivity.
  - destruct p; reflexivity.
  - destruct p; reflexivity.
  - unfold separator. rewrite length_app, repeat_length. reflexivity.
Qed.

Section Encoding.

Variables Buf Handle number : Type.
Variable U : bluetoothUtils Buf.
Variable toFixed2 : number -> JSString.
Variable plus : number -> number -> number.
Variable zero : number.

(** The buffers of a receipt are the encodings of its commands. *)
Lemma receipt_encode (isTest : bool) (st : AppState Handle number) :
  receipt U toFixed2 plus zero isTest st
  = map (encode U)
      (receipt (commands (getSeparator U)) toFixed2 plus zero isTest st).
Proof.
  unfold receipt, header, customerInfo, lineItems, totalBlock, footer, feed.
  rewrite !map_app.
  repeat match goal with
         | |- context [if ?c then _ else _] => destruct c
         end;
    cbn [map app commands encode ESC_INIT ESC_ALIGN_CENTER ESC_ALIGN_LEFT
           ESC_BOLD_ON ESC_BOLD_OFF ESC_FEED FONT_SIZE_NORMAL
           FONT_SIZE_LARGE FONT_SIZE_DOUBLE_HEIGHT textToBytes
           getSeparator];
    rewrite ?map_repeat, ?flat_map_concat_map, ?concat_map, ?map_map;
    reflexivity.
Qed.

End Encoding.

(** C5: each of the nine control variants encodes to its one fixed
    literal; the encoder keeps no state, so in any series of encodings the
    result for a command is that literal whatever was encoded before or
    after it; and every buffer [printBluetoothDirect] sends is the encoding
    of the command at its position. *)
Theorem encode_control_is_fixed
    (Buf Handle number : Type) (U : bluetoothUtils Buf)
    (toFixed2 : number -> JSString) (plus : number -> number -> number)
    (zero : number) (isTest : bool) (st : AppState Handle number)
    (before after : list PrinterCommand) (c : PrinterCommand) :
  (encode U Init = ESC_INIT U
   /\ encode U AlignLeft = ESC_ALIGN_LEFT U
   /\ encode U AlignCenter = ESC_ALIGN_CENTER U
   /\ encode U BoldOn = ESC_BOLD_ON U
   /\ encode U BoldOff = ESC_BOLD_OFF U
   /\ encode U FontNormal = FONT_SIZE_NORMAL U
   /\ encode U FontLarge = FONT_SIZE_LARGE U
   /\ encode U FontDoubleHeight = FONT_SIZE_DOUBLE_HEIGHT U
   /\ encode U Feed = ESC_FEED U)
  /\ nth_error (map (encode U) (before ++ c :: after)) (length before)
     = Some (encode U c)
  /\ receipt U toFixed2 plus zero isTest st
     = map (encode U)
         (receipt (commands (getSeparator U)) toFixed2 plus zero isTest st).
Proof.
  split; [repeat split|]. split.
  - rewrite map_app. cbn [map].
    rewrite nth_error_app2 by (rewrite length_map; apply le_n).
    rewrite length_map, Nat.sub_diag. reflexivity.
  - apply receipt_encode.
Qed.

Lemma char_byte_cases (fallback : byte) (c : N) :
  if (c <? 256)%N
  then Byte.to_N (char_byte fallback c) = c
  else char_byte fallback c = fallback.
Proof.
  unfold char_byte. destruct (N.ltb_spec c 256) as [Hlt|Hge].
  - destruct (Byte.of_N c) as [b|] eqn:Hb.
    + apply Byte.to_of_N. exact Hb.
    + apply Byte.of_N_None_iff in Hb. lia.
  - destruct (Byte.of_N c) as [b|] eqn:Hb; [|reflexivity].
    apply Byte.to_of_N in Hb. pose proof (Byte.to_N_bounded b). lia.
Qed.

Section Recorder.

Variables Buf Handle Exn number : Type.
Variable U : bluetoothUtils Buf.
Variable exnToString : Exn -> JSString.
Variable toFixed2 : number -> JSString.
Variable plus : number -> number -> number.
Variable zero : number.

Lemma send_sequence_recorder (char : Handle) (bufs : list Buf)
    (w : World (list Buf)) :
  send_sequence (@recorder Buf Handle Exn) char bufs w
  = (Returned tt,
     {| transport := transport w ++ bufs;
        alerts := alerts w;
        isPrintConfirmOpen := isPrintConfirmOpen w |}).
Proof.
  revert w. induction bufs as [|b bufs IH]; intros w.
  - cbn. rewrite app_nil_r. destruct w; reflexivity.
  - cbn [send_sequence]. unfold bind, await, recorder at 1.
    rewrite IH. cbn [transport alerts isPrintConfirmOpen].
    rewrite <- app_assoc. reflexivity.
Qed.

(** On a transport that accepts everything the run completes, shows no
    alert, and has handed over the whole receipt. *)
Lemma printBluetoothDirect_recorder (isTest : bool)
    (st : AppState Handle number) (char : Handle) (w : World (list Buf)) :
  characteristic (bt st) = Some char ->
  printBluetoothDirect U (@recorder Buf Handle Exn) exnToString toFixed2
    plus zero isTest st w
  = (Returned tt,
     {| transport := transport w ++ receipt U toFixed2 plus zero isTest st;
        alerts := alerts w;
        isPrintConfirmOpen := false |}).
Proof.
  intros Hc. unfold printBluetoothDirect. rewrite Hc.
  unfold tryCatchFinally.
  rewrite printBody_sequence, send_sequence_recorder. reflexivity.
Qed.

End Recorder.

(** C6: the encoding of [Text s] has one byte per character of [s]: the
    byte whose value is the character's code when that is below 256, the
    fallback byte otherwise.  It is a total function into byte strings, so
    there is no failure to propagate: a job whose texts are arbitrary
    strings, sent to a transport that accepts everything, completes
    without any alert and with the dialog closed. *)
Theorem text_encoding_degrades_gracefully
    (Handle number : Type) (fallback : byte) (K : bluetoothUtils bytes)
    (toFixed2 : number -> JSString) (plus : number -> number -> number)
    (zero : number) (isTest : bool) (st : AppState Handle number)
    (char : Handle) (s : JSString) :
  characteristic (bt st) = Some char ->
  encode (escpos fallback K) (Text s) = text_to_bytes fallback s
  /\ length (text_to_bytes fallback s) = length s
  /\ (forall i,
        nth_error (text_to_bytes fallback s) i
        = option_map (char_byte fallback) (nth_error s i))
  /\ (forall c,
        if (c <? 256)%N
        then Byte.to_N (char_byte fallback c) = c
        else char_byte fallback c = fallback)
  /\ visible
       (printBluetoothDirect (escpos fallback K)
          (@recorder bytes Handle unit) (fun _ => []) toFixed2 plus zero
          isTest st (fresh []))
     = (Returned tt, [], false).
Proof.
  intros Hc. split; [reflexivity|]. split; [apply length_map|].
  split; [intros i; apply nth_error_map|].
  split; [apply char_byte_cases|].
  rewrite (printBluetoothDirect_recorder _ _ _ _ _ _ _ _ Hc). reflexivity.
Qed.

Lemma text_encoding_degrades_gracefully_witness :
  characteristic (bt sample_state) = Some tt
  /\ text_to_bytes "?"%byte [72; 8364; 233]%N = ["H"; "?"; xe9]%byte
  /\ length (text_to_bytes "?"%byte [72; 8364; 233]%N) = 3.
Proof.
  split; [reflexivity|]. split; [reflexivity|].
  exact (proj1 (proj2 (@text_encoding_degrades_gracefully unit nat "?"%byte
                         sample_literals ringgit Nat.add 0 false
                         sample_state tt [72; 8364; 233]%N eq_refl))).
Defined.

(** ** The receipt and the scenario of the specification *)

Lemma sub_writes_correct (L : nat) (buffer : bytes) :
  0 < L ->
  concat (sub_writes L buffer) = buffer
  /\ Forall (fun c => length c <= L) (sub_writes L buffer).
Proof.
  intros HL. unfold sub_writes.
  destruct (Nat.leb_spec (length buffer) L) as [Hle|Hgt].
  - cbn. rewrite app_nil_r. split; [reflexivity|].
    constructor; [exact Hle|constructor].
  - destruct (@chunks_fuel_correct (length buffer) L buffer HL (le_n _))
      as (Hcat & Hall & _).
    split; assumption.
Qed.

Lemma delivered_accepted (Dev : Type) (l : PrinterLink Dev)
    (css : list (list bytes)) :
  delivered {| link := l; wire := flat_map (map accepted) css |}
  = concat (map (@concat byte) css).
Proof.
  unfold delivered. cbn [wire].
  induction css as [|cs css IH].
  - reflexivity.
  - cbn [flat_map map concat].
    rewrite filter_app, map_app, concat_app, IH. f_equal.
    clear IH. induction cs as [|c cs IHc].
    + reflexivity.
    + cbn. now rewrite IHc.
Qed.

Section Accepting.

Variables Dev Handle : Type.
Variable writeValue : Dev -> bytes -> WriteOutcome * Dev.
Variable L : nat.
Hypothesis accepts : forall d c, fst (writeValue d c) = Accepted.

(** On a device that accepts every write, a sequence of sends returns
    and leaves on the wire the writes of each buffer, buffer after
    buffer. *)
Lemma send_sequence_accepting (char : Handle) (bufs : list bytes)
    (d : Dev) (wr : list (bytes * WriteOutcome)) (al : list JSString)
    (fl : bool) :
  exists d',
    send_sequence (sendDataToPrinter_spec writeValue L) char bufs
      {| transport := {| link := Connected d; wire := wr |};
         alerts := al; isPrintConfirmOpen := fl |}
    = (Returned tt,
       {| transport :=
            {| link := Connected d';
               wire := wr ++ flat_map (fun b => map accepted (sub_writes L b))
                                bufs |};
          alerts := al; isPrintConfirmOpen := fl |}).
Proof.
  revert d wr. induction bufs as [|b bufs IH]; intros d wr.
  - exists d. cbn. now rewrite app_nil_r.
  - cbn [send_sequence]. unfold bind, await, sendDataToPrinter_spec at 1.
    cbn [transport alerts isPrintConfirmOpen]. unfold send. cbn [link wire].
    destruct (write_chunks_accepting writeValue (sub_writes L b) d wr accepts)
      as (Hr & Hw & d1 & Hl).
    destruct (write_chunks writeValue (sub_writes L b) d wr) as [o [l wi]].
    cbn in Hr, Hw, Hl. subst o l wi.
    destruct (IH d1 (wr ++ map accepted (sub_writes L b))) as (d' & Hd').
    exists d'. rewrite Hd'. cbn [flat_map]. now rewrite <- app_assoc.
Qed.

End Accepting.

(** C8: the run of [printBluetoothDirect] is its header, customer
    information, line items, total, footer and feed blocks, in this order,
    handed to the transport one buffer at a time, each send awaited before
    the next.  In the scenario of the specification the commands [Init],
    [AlignCenter], [Text "HELLO"], [Feed] encode to four buffers, the text
    one being the five bytes of HELLO sent as a single write; with chunk
    limit 512 on an accepting device the sequence returns, the wire holds
    the writes of the four buffers in that order, none longer than 512
    bytes, and the device has received the init and align literals, then
    HELLO, then the feed literal. *)
Theorem receipt_order_and_scenario
    (Buf Handle T Exn number : Type) (U : bluetoothUtils Buf)
    (sdp : Handle -> Buf -> T -> outcome Exn unit * T)
    (exnToString : Exn -> JSString) (toFixed2 : number -> JSString)
    (plus : number -> number -> number) (zero : number)
    (isTest : bool) (st : AppState Handle number) (char : Handle)
    (w : World T) (fallback : byte) (K : bluetoothUtils bytes) :
  characteristic (bt st) = Some char ->
  let blocks :=
    header U st ++ customerInfo U isTest st ++ lineItems U toFixed2 isTest st
    ++ totalBlock U toFixed2 plus zero isTest st ++ footer U st
    ++ feed U st in
  let bufs :=
    map (encode (escpos fallback K))
      [Init; AlignCenter; Text (lit "HELLO"); Feed] in
  let r :=
    send_sequence (sendDataToPrinter_spec ideal_device 512) char bufs
      (fresh {| link := Connected tt; wire := [] |}) in
  printBluetoothDirect U sdp exnToString toFixed2 plus zero isTest st w
  = tryCatchFinally (send_sequence sdp char blocks)
      (fun e =>
         alert (lit "Ralat cetakan Bluetooth: " ++ exnToString e))
      (setIsPrintConfirmOpen false) w
  /\ emitted U toFixed2 plus zero isTest st = blocks
  /\ bufs = [ESC_INIT K; ESC_ALIGN_CENTER K; hello_bytes; ESC_FEED K]
  /\ length bufs = 4
  /\ sub_writes 512 hello_bytes = [hello_bytes]
  /\ fst r = Returned tt
  /\ wire (transport (snd r))
     = flat_map (fun b => map accepted (sub_writes 512 b)) bufs
  /\ Forall (fun cw => length (fst cw) <= 512) (wire (transport (snd r)))
  /\ delivered (transport (snd r))
     = ESC_INIT K ++ ESC_ALIGN_CENTER K ++ hello_bytes ++ ESC_FEED K.
Proof.
  intros Hc blocks bufs r.
  assert (Hr : exists d',
             r = (Returned tt,
                  {| transport :=
                       {| link := Connected d';
                          wire := flat_map
                                    (fun b => map accepted (sub_writes 512 b))
                                    bufs |};
                     alerts := []; isPrintConfirmOpen := true |})).
  { destruct (@send_sequence_accepting unit Handle ideal_device 512
                (fun _ _ => eq_refl) char bufs tt [] [] true) as (d' & Hd').
    exists d'. exact Hd'. }
  destruct Hr as (d' & Hr).
  split.
  { unfold printBluetoothDirect. rewrite Hc. unfold tryCatchFinally.
    rewrite printBody_sequence. reflexivity. }
  split.
  { unfold emitted.
    rewrite (printBluetoothDirect_recorder _ _ _ _ _ _ _ _ Hc). reflexivity. }
  split; [reflexivity|]. split; [reflexivity|]. split; [reflexivity|].
  rewrite Hr. cbn [fst snd transport wire].
  split; [reflexivity|]. split; [reflexivity|]. split.
  - apply Forall_forall. intros cw Hin.
    apply in_flat_map in Hin. destruct Hin as (b & _ & Hin).
    apply in_map_iff in Hin. destruct Hin as (c & <- & Hin).
    cbn [accepted fst].
    destruct (@sub_writes_correct 512 b ltac:(lia)) as [_ Hall].
    rewrite Forall_forall in Hall. apply Hall, Hin.
  - rewrite flat_map_concat_map.
    change (concat (map (fun b => map accepted (sub_writes 512 b)) bufs))
      with (flat_map (map accepted) (map (sub_writes 512) bufs)).
    rewrite delivered_accepted, map_map.
    subst bufs. cbn [map concat encode escpos ESC_INIT ESC_ALIGN_CENTER
                       ESC_FEED textToBytes].
    rewrite !(proj1 (@sub_writes_correct 512 _ ltac:(lia))).
    rewrite app_nil_r. reflexivity.
Qed.

Lemma receipt_order_and_scenario_witness :
  characteristic (bt sample_state) = Some tt
  /\ emitted (commands sample_separator) ringgit Nat.add 0 false sample_state
     = header (commands sample_separator) sample_state
       ++ customerInfo (commands sample_separator) false sample_state
       ++ lineItems (commands sample_separator) ringgit false sample_state
       ++ totalBlock (commands sample_separator) ringgit Nat.add 0 false
            sample_state
       ++ footer (commands sample_separator) sample_state
       ++ feed (commands sample_separator) sample_state.
Proof.
  split; [reflexivity|].
  exact (proj1 (proj2 (@receipt_order_and_scenario _ _ _ _ _
                         (commands sample_separator)
                         (@recorder PrinterCommand unit unit)
                         (fun _ : unit => []) ringgit Nat.add 0 false
                         sample_state tt (fresh []) "?"%byte
                         sample_literals eq_refl))).
Defined.

(** ** Formatting state *)

Lemma always_closed_suffix (opens : PrinterCommand -> bool)
    (closer : PrinterCommand) (A B : list PrinterCommand) :
  opens closer = false ->
  Forall (fun c => opens c = false) B ->
  always_closed opens closer (A ++ closer :: B).
Proof.
  intros Hcl HB. unfold always_closed.
  induction A as [|a A IH]; intros pre c post Heq Hopen.
  - destruct pre as [|x pre]; cbn in Heq.
    + injection Heq as Hc _. subst c. congruence.
    + injection Heq as _ HBeq. rewrite Forall_forall in HB.
      assert (Hin : In c B) by (rewrite HBeq; apply in_elt).
      specialize (HB c Hin). cbn in HB. congruence.
  - destruct pre as [|x pre]; cbn in Heq.
    + injection Heq as _ Hpost. subst post. apply in_elt.
    + injection Heq as _ Heq. exact (IH pre c post Heq Hopen).
Qed.

Lemma feeds_keep_formatting (n : nat) (f : Formatting) :
  fold_left apply_command (repeat Feed n) f = f.
Proof.
  induction n as [|n IH]; [reflexivity|]. cbn. exact IH.
Qed.

Lemma feeds_open_nothing (opens : PrinterCommand -> bool) (n : nat) :
  opens Feed = false -> Forall (fun c => opens c = false) (repeat Feed n).
Proof.
  intros H. apply Forall_forall. intros c Hin.
  apply repeat_spec in Hin. now subst c.
Qed.

Section Formatting.

Variables Handle number : Type.
Variable sep : PaperWidth -> JSString.
Variable toFixed2 : number -> JSString.
Variable plus : number -> number -> number.
Variable zero : number.

Local Abbreviation U := (commands sep).

(** Every receipt ends with the restoring commands of the total block,
    the footer text and the feeds. *)
Lemma receipt_ending (isTest : bool) (st : AppState Handle number) :
  receipt U toFixed2 plus zero isTest st
  = (header U st ++ customerInfo U isTest st
     ++ lineItems U toFixed2 isTest st
     ++ firstn 5 (totalBlock U toFixed2 plus zero isTest st))
    ++ FontNormal :: BoldOff
       :: Text (orElse (footerText (printerSettings st))
                  (lit "Terima Kasih"))
       :: repeat Feed (Z.to_nat (extraFeeds (printerSettings st))).
Proof.
  unfold receipt, totalBlock, footer, feed. cbn [firstn].
  rewrite <- !app_assoc. reflexivity.
Qed.

Lemma header_bold_on (st : AppState Handle number) :
  In BoldOn (header U st) <-> boldHeaders (printerSettings st) = true.
Proof.
  unfold header. destruct (boldHeaders (printerSettings st)); cbn.
  - split; [reflexivity|]. intros _. right. right. left. reflexivity.
  - split; [|discriminate].
    intros H. repeat (destruct H as [H|H]; [discriminate H|]). elim H.
Qed.

Lemma header_bold_off (st : AppState Handle number) :
  In BoldOff (header U st) <-> boldHeaders (printerSettings st) = true.
Proof.
  unfold header. destruct (boldHeaders (printerSettings st)); cbn.
  - split; [reflexivity|]. intros _. do 6 right. left. reflexivity.
  - split; [|discriminate].
    intros H. repeat (destruct H as [H|H]; [discriminate H|]). elim H.
Qed.

End Formatting.

(** C9: in the command sequence of a run that completes, every [BoldOn] is
    followed later by a [BoldOff] and every [FontLarge] or
    [FontDoubleHeight] by a [FontNormal]; the formatting state after the
    last command is bold off, font normal.  The header block holds a
    [BoldOn] and a [BoldOff] exactly when [boldHeaders] is set; the pair
    around the total is always there. *)
Theorem formatting_is_restored
    (Handle number : Type) (sep : PaperWidth -> JSString)
    (toFixed2 : number -> JSString) (plus : number -> number -> number)
    (zero : number) (isTest : bool) (st : AppState Handle number)
    (char : Handle) :
  characteristic (bt st) = Some char ->
  let U := commands sep in
  let cs := emitted U toFixed2 plus zero isTest st in
  cs = header U st
       ++ (customerInfo U isTest st ++ lineItems U toFixed2 isTest st
           ++ totalBlock U toFixed2 plus zero isTest st ++ footer U st
           ++ feed U st)
  /\ always_closed is_bold_on BoldOff cs
  /\ always_closed is_big_font FontNormal cs
  /\ bold (final_formatting cs) = false
  /\ font (final_formatting cs) = FNormal
  /\ (In BoldOn (header U st) <-> boldHeaders (printerSettings st) = true)
  /\ (In BoldOff (header U st) <-> boldHeaders (printerSettings st) = true)
  /\ In BoldOn (totalBlock U toFixed2 plus zero isTest st)
  /\ In BoldOff (totalBlock U toFixed2 plus zero isTest st).
Proof.
  intros Hc U cs.
  assert (Hcs : cs = receipt U toFixed2 plus zero isTest st).
  { subst cs. unfold emitted.
    rewrite (printBluetoothDirect_recorder _ _ _ _ _ _ _ _ Hc). reflexivity. }
  split; [exact Hcs|].
  pose proof (receipt_ending sep toFixed2 plus zero isTest st) as Hend.
  fold U in Hend. rewrite <- Hcs in Hend.
  split.
  { rewrite Hend.
    match goal with
    | |- always_closed _ _ (?A ++ ?x :: BoldOff :: ?B) =>
        change (A ++ x :: BoldOff :: B) with (A ++ [x] ++ BoldOff :: B)
    end.
    rewrite app_assoc. apply always_closed_suffix; [reflexivity|].
    constructor; [reflexivity|]. apply feeds_open_nothing. reflexivity. }
  split.
  { rewrite Hend. apply always_closed_suffix; [reflexivity|].
    constructor; [reflexivity|]. constructor; [reflexivity|].
    apply feeds_open_nothing. reflexivity. }
  assert (Hfin : final_formatting cs = initial_formatting).
  { rewrite Hend. unfold final_formatting. rewrite fold_left_app.
    cbn [fold_left apply_command bold font].
    apply feeds_keep_formatting. }
  split; [now rewrite Hfin|]. split; [now rewrite Hfin|].
  split; [apply header_bold_on|]. split; [apply header_bold_off|].
  split; cbn; tauto.
Qed.

Lemma formatting_is_restored_witness :
  characteristic (bt sample_state) = Some tt
  /\ bold (final_formatting
             (emitted (commands sample_separator) ringgit Nat.add 0 false
                sample_state)) = false.
Proof.
  split; [reflexivity|].
  exact (proj1 (proj2 (proj2 (proj2
           (@formatting_is_restored unit nat sample_separator ringgit
              Nat.add 0 false sample_state tt eq_refl))))).
Defined.

(** ** Test prints *)

(** C10: with [isTest = true] the run does not depend on the cart, on the
    customer's phone and address, or on the [includePhone] and
    [includeAddress] settings: on every transport and from every world,
    the whole run (result, alerts, transport state) of a state and of the
    same state with these inputs replaced are equal, and so are the
    emitted sequences, whatever the buffers are.  The emitted commands are
    the header, then the date and the fixed name line directly followed by
    the separator (no phone or address line), the fixed lines
    "TEST SERVICE" and "RM 10.00", and the total "JUMLAH: RM 10.00". *)
Theorem test_print_ignores_customer_data
    (Buf Handle T Exn number : Type) (U : bluetoothUtils Buf)
    (sdp : Handle -> Buf -> T -> outcome Exn unit * T)
    (exnToString : Exn -> JSString) (toFixed2 : number -> JSString)
    (plus : number -> number -> number) (zero : number)
    (st : AppState Handle number) (char : Handle) (w : World T)
    (cart' : list (CartItem.t number)) (phone' address' : JSString)
    (includePhone' includeAddress' : bool) (sep : PaperWidth -> JSString) :
  characteristic (bt st) = Some char ->
  let st' :=
    with_customer_data st cart' phone' address' includePhone'
      includeAddress' in
  let line := sep (paperWidth (printerSettings st)) in
  printBluetoothDirect U sdp exnToString toFixed2 plus zero true st' w
  = printBluetoothDirect U sdp exnToString toFixed2 plus zero true st w
  /\ emitted U toFixed2 plus zero true st'
     = emitted U toFixed2 plus zero true st
  /\ emitted (commands sep) toFixed2 plus zero true st
     = header (commands sep) st
       ++ [AlignLeft;
           Text (lit "Tarikh: "
                 ++ formatDateForDisplay (ClientForm.date (clientForm st)));
           Text (lit "Nama: TEST PRINT");
           Text line;
           Text (lit "TEST SERVICE");
           Text (lit "RM 10.00");
           Text line;
           AlignCenter; BoldOn; FontDoubleHeight;
           Text (lit "JUMLAH: RM 10.00");
           FontNormal; BoldOff;
           Text (orElse (footerText (printerSettings st))
                   (lit "Terima Kasih"))]
       ++ repeat Feed (Z.to_nat (extraFeeds (printerSettings st))).
Proof.
  intros Hc st' line.
  assert (Hrec : forall (B : Type) (V : bluetoothUtils B),
             receipt V toFixed2 plus zero true st'
             = receipt V toFixed2 plus zero true st) by reflexivity.
  split; [|split].
  - unfold printBluetoothDirect. cbn [st' with_customer_data bt].
    rewrite Hc. unfold tryCatchFinally.
    rewrite !printBody_sequence, Hrec. reflexivity.
  - unfold emitted.
    rewrite (printBluetoothDirect_recorder _ _ _ _ _ _ _ _ Hc).
    assert (Hc' : characteristic (bt st') = Some char) by exact Hc.
    rewrite (printBluetoothDirect_recorder _ _ _ _ _ _ _ _ Hc').
    cbn [snd transport]. now rewrite Hrec.
  - unfold emitted.
    rewrite (printBluetoothDirect_recorder _ _ _ _ _ _ _ _ Hc).
    cbn [snd transport fresh app].
    unfold receipt, customerInfo, lineItems, totalBlock, footer, feed.
    cbn [negb andb app commands textToBytes getSeparator ESC_ALIGN_LEFT
           ESC_ALIGN_CENTER ESC_BOLD_ON ESC_BOLD_OFF ESC_FEED
           FONT_SIZE_NORMAL FONT_SIZE_DOUBLE_HEIGHT].
    reflexivity.
Qed.

Lemma test_print_ignores_customer_data_witness :
  characteristic (bt sample_state) = Some tt
  /\ emitted sample_literals ringgit Nat.add 0 true
       (with_customer_data sample_state [] (lit "999") [] false false)
     = emitted sample_literals ringgit Nat.add 0 true sample_state.
Proof.
  split; [reflexivity|].
  exact (proj1 (proj2
           (@test_print_ignores_customer_data _ _ _ _ _ sample_literals
              (@recorder bytes unit unit) (fun _ : unit => []) ringgit
              Nat.add 0 sample_state tt (fresh []) [] (lit "999") [] false
              false sample_separator eq_refl))).
Defined.

(** * Further properties of the component *)

(** ** Dates *)

Lemma split_without_separator (c : N) (s : JSString) :
  includes c s = false -> split c s = [s].
Proof.
  unfold includes. induction s as [|x s IH]; intros H.
  - reflexivity.
  - cbn in H. apply orb_false_iff in H. destruct H as [Hx Hs].
    cbn [split]. rewrite N.eqb_sym, Hx, (IH Hs). reflexivity.
Qed.

Lemma split_at_separator (c : N) (a b : JSString) :
  includes c a = false -> split c (a ++ c :: b) = a :: split c b.
Proof.
  unfold includes. induction a as [|x a IH]; intros H.
  - cbn. now rewrite N.eqb_refl.
  - cbn in H. apply orb_false_iff in H. destruct H as [Hx Ha].
    cbn [app split]. rewrite N.eqb_sym, Hx, (IH Ha). reflexivity.
Qed.

Lemma includes_app (c : N) (a b : JSString) :
  includes c (a ++ b) = includes c a || includes c b.
Proof.
  unfold includes. apply existsb_app.
Qed.

(** The three parts of a date, joined by the separator [c], split back
    into the three parts. *)
Lemma split_three (c : N) (p q r : JSString) :
  includes c p = false -> includes c q = false -> includes c r = false ->
  split c (p ++ c :: q ++ c :: r) = [p; q; r].
Proof.
  intros Hp Hq Hr.
  rewrite (@split_at_separator c p _ Hp), (@split_at_separator c q _ Hq).
  now rewrite (@split_without_separator c r Hr).
Qed.

Lemma formatDateForDisplay_nonempty (s : JSString) :
  s <> [] ->
  formatDateForDisplay s
  = if includes 47%N s then s
    else interpolate (nth_error (split 45%N s) 2) ++ lit "/"
         ++ interpolate (nth_error (split 45%N s) 1) ++ lit "/"
         ++ interpolate (nth_error (split 45%N s) 0).
Proof.
  destruct s; [congruence|reflexivity].
Qed.

Lemma formatDateForInput_nonempty (today s : JSString) :
  s <> [] ->
  formatDateForInput today s
  = if includes 47%N s
    then interpolate (nth_error (split 47%N s) 2) ++ lit "-"
         ++ interpolate (nth_error (split 47%N s) 1) ++ lit "-"
         ++ interpolate (nth_error (split 47%N s) 0)
    else s.
Proof.
  destruct s; [congruence|reflexivity].
Qed.

(** X1: [formatDateForDisplay] never returns the empty string, for any
    input: the empty input gives a single dash, and every non-empty input
    gives a text that contains a slash.  It is idempotent exactly on the
    non-empty inputs: such a result is returned unchanged by a second
    pass, while the dash made from the empty input is changed by one. *)
Theorem formatDateForDisplay_idempotent (s : JSString) :
  formatDateForDisplay s <> []
  /\ (s = [] -> formatDateForDisplay s = lit "-")
  /\ (s <> [] -> includes 47 (formatDateForDisplay s) = true)
  /\ (formatDateForDisplay (formatDateForDisplay s) = formatDateForDisplay s
      <-> s <> []).
Proof.
  destruct s as [|x s].
  - split; [discriminate|]. split; [reflexivity|].
    split; [congruence|]. split.
    + intros H. vm_compute in H. discriminate H.
    + congruence.
  - assert (Hout : exists out,
               formatDateForDisplay (x :: s) = out
               /\ includes 47 out = true).
    { unfold formatDateForDisplay.
      destruct (includes 47 (x :: s)) eqn:Hinc.
      - exists (x :: s). split; [reflexivity|exact Hinc].
      - eexists. split; [reflexivity|].
        rewrite includes_app, includes_app. cbn. now rewrite orb_true_r. }
    destruct Hout as (out & Hout & Hslash). rewrite Hout.
    destruct out as [|o out']; [discriminate Hslash|].
    split; [discriminate|]. split; [discriminate|].
    split; [intros _; exact Hslash|].
    split; [discriminate|]. intros _.
    unfold formatDateForDisplay. now rewrite Hslash.
Qed.

Lemma formatDateForDisplay_idempotent_witness :
  lit "2024-01-31" <> []
  /\ formatDateForDisplay (formatDateForDisplay (lit "2024-01-31"))
     = formatDateForDisplay (lit "2024-01-31")
  /\ formatDateForDisplay [] <> [].
Proof.
  assert (H : lit "2024-01-31" <> []) by discriminate.
  split; [exact H|]. split.
  - exact (proj2 (proj2 (proj2 (proj2
             (formatDateForDisplay_idempotent (lit "2024-01-31"))))) H).
  - exact (proj1 (formatDateForDisplay_idempotent [])).
Defined.

(** The two date formats, on three parts free of separators. *)
Lemma date_parts_round_trip (today y m d : JSString) :
  includes 45 y = false -> includes 45 m = false -> includes 45 d = false ->
  includes 47 y = false -> includes 47 m = false -> includes 47 d = false ->
  let iso := y ++ lit "-" ++ m ++ lit "-" ++ d in
  let shown := d ++ lit "/" ++ m ++ lit "/" ++ y in
  formatDateForDisplay iso = shown
  /\ formatDateForInput today shown = iso
  /\ formatDateForInput today (formatDateForDisplay iso) = iso
  /\ formatDateForDisplay (formatDateForInput today shown) = shown.
Proof.
  intros Hy Hm Hd Sy Sm Sd iso shown.
  assert (Hiso : iso <> []) by (subst iso; destruct y; discriminate).
  assert (Hsh : shown <> []) by (subst shown; destruct d; discriminate).
  assert (Hshow : formatDateForDisplay iso = shown).
  { rewrite (formatDateForDisplay_nonempty Hiso).
    assert (Hs : includes 47 iso = false).
    { subst iso. rewrite !includes_app, Sy, Sm, Sd. reflexivity. }
    rewrite Hs. subst iso.
    change (lit "-") with [45%N]. change (lit "/") with [47%N]. cbn [app].
    rewrite (@split_three 45 y m d Hy Hm Hd). reflexivity. }
  assert (Hin : formatDateForInput today shown = iso).
  { rewrite (formatDateForInput_nonempty today Hsh).
    assert (Hs : includes 47 shown = true).
    { subst shown. rewrite !includes_app. cbn. now rewrite orb_true_r. }
    rewrite Hs. subst shown.
    change (lit "-") with [45%N]. change (lit "/") with [47%N]. cbn [app].
    rewrite (@split_three 47 d m y Sd Sm Sy). reflexivity. }
  repeat split; try assumption.
  - now rewrite Hshow.
  - now rewrite Hin.
Qed.

(** X2: for a year, a month and a day that contain neither a dash nor a
    slash, the ISO form [y-m-d] is displayed as [d/m/y], the display form
    is turned back into exactly [y-m-d] (whatever today's date is), and
    displaying that again gives [d/m/y]: the date of a record survives
    being saved, edited and saved again. *)
Theorem date_round_trip (today y m d : JSString) :
  includes 45 y = false -> includes 45 m = false -> includes 45 d = false ->
  includes 47 y = false -> includes 47 m = false -> includes 47 d = false ->
  let iso := y ++ lit "-" ++ m ++ lit "-" ++ d in
  let shown := d ++ lit "/" ++ m ++ lit "/" ++ y in
  formatDateForDisplay iso = shown
  /\ formatDateForInput today shown = iso
  /\ formatDateForInput today (formatDateForDisplay iso) = iso
  /\ formatDateForDisplay (formatDateForInput today shown) = shown.
Proof.
  apply date_parts_round_trip.
Qed.

Lemma date_round_trip_witness :
  includes 45 (lit "2024") = false
  /\ formatDateForInput (lit "1999-12-31")
       (formatDateForDisplay (lit "2024-01-31"))
     = lit "2024-01-31".
Proof.
  split; [reflexivity|].
  exact (proj1 (proj2 (proj2
           (@date_round_trip (lit "1999-12-31") (lit "2024") (lit "01")
              (lit "31") eq_refl eq_refl eq_refl eq_refl eq_refl eq_refl)))).
Defined.

(** ** The draft timer *)

Lemma double_of_Z_exact (z : Z) :
  (Z.abs z <= 2 ^ 53)%Z -> double_of_Z z = Some z.
Proof.
  intros H. unfold double_of_Z.
  destruct (Z.leb_spec (Z.abs z) (2 ^ 53)) as [_|Hgt]; [reflexivity|lia].
Qed.

(** Rounding a positive integer never takes it below itself or [2^52],
    whichever is smaller. *)
Lemma double_of_Z_lower (z t : Z) :
  (0 < z)%Z -> double_of_Z z = Some t -> (Z.min z (2 ^ 52) <= t)%Z.
Proof.
  intros Hz. unfold double_of_Z.
  rewrite (Z.abs_eq z) by lia.
  destruct (Z.leb_spec z (2 ^ 53)) as [Hle|Hgt].
  - intros E. injection E as <-. lia.
  - set (k := (Z.log2 z - 52)%Z).
    assert (Hlog : (53 <= Z.log2 z)%Z).
    { apply Z.log2_le_pow2; lia. }
    assert (Hk : (1 <= k)%Z) by (subst k; lia).
    assert (Hpow : (0 < 2 ^ k)%Z) by (apply Z.pow_pos_nonneg; lia).
    assert (Hq : (2 ^ 52 <= z / 2 ^ k)%Z).
    { apply Z.div_le_lower_bound; [exact Hpow|].
      rewrite Z.mul_comm, <- Z.pow_add_r by lia.
      replace (52 + k)%Z with (Z.log2 z) by (subst k; lia).
      apply Z.log2_spec. exact Hz. }
    set (q' := if (z mod 2 ^ k <? 2 ^ (k - 1))%Z then (z / 2 ^ k)%Z
               else if (2 ^ (k - 1) <? z mod 2 ^ k)%Z then (z / 2 ^ k + 1)%Z
               else if Z.even (z / 2 ^ k) then (z / 2 ^ k)%Z
                    else (z / 2 ^ k + 1)%Z).
    assert (Hq' : (2 ^ 52 <= q')%Z).
    { subst q'. destruct (_ <? _)%Z; [exact Hq|].
      destruct (_ <? _)%Z; [lia|]. destruct (Z.even _); lia. }
    destruct (2 ^ 1024 <=? q' * 2 ^ k)%Z; [discriminate|].
    intros E. injection E as <-.
    rewrite Z.sgn_pos by exact Hz.
    assert (2 ^ 52 * 1 <= q' * 2 ^ k)%Z by (apply Z.mul_le_mono_nonneg; lia).
    lia.
Qed.

(** The rounding at work: the product for the largest integer that is a
    double on its own is not the exact product. *)
Lemma intervalTime_rounds :
  intervalTime
    {| paperWidth := W58mm; fontSize := Normal; extraFeeds := 3;
       boldHeaders := true; footerText := []; googleSheetUrl := None;
       googleAppsScriptUrl := None;
       autoSaveInterval := 9007199254740991; autoSync := false;
       includePhone := true; includeAddress := true |}
  = Some 9007199254740990976%Z.
Proof.
  vm_compute. reflexivity.
Qed.

(** X3: the auto-save period, as the double the code computes, is never
    below 5000 milliseconds, for any integral setting.  A setting from 5
    to 9007199254740, for which the multiplication by 1000 is exact,
    gives the setting times 1000; a setting of 0 means sixty seconds; any
    other setting below 5, negative ones included, means five seconds. *)
Theorem autosave_period_bounds (ps : PrinterSettings) :
  (forall t, intervalTime ps = Some t -> (5000 <= t)%Z)
  /\ ((5 <= autoSaveInterval ps <= 9007199254740)%Z ->
      intervalTime ps = Some (autoSaveInterval ps * 1000)%Z)
  /\ (autoSaveInterval ps = 0%Z -> intervalTime ps = Some 60000%Z)
  /\ ((autoSaveInterval ps < 5)%Z -> autoSaveInterval ps <> 0%Z ->
      intervalTime ps = Some 5000%Z).
Proof.
  unfold intervalTime.
  assert (H53 : (2 ^ 53 = 9007199254740992)%Z) by reflexivity.
  assert (H52 : (2 ^ 52 = 4503599627370496)%Z) by reflexivity.
  split; [|split; [|split]].
  - intros t Ht. apply double_of_Z_lower in Ht.
    + destruct (Z.eqb_spec (autoSaveInterval ps) 0); lia.
    + destruct (Z.eqb_spec (autoSaveInterval ps) 0); lia.
  - intros Hn. destruct (Z.eqb_spec (autoSaveInterval ps) 0); [lia|].
    rewrite Z.max_r by lia. apply double_of_Z_exact. lia.
  - intros ->. reflexivity.
  - intros Hlt Hne. destruct (Z.eqb_spec (autoSaveInterval ps) 0); [lia|].
    rewrite Z.max_l by lia. reflexivity.
Qed.

Lemma autosave_period_bounds_witness :
  (5 <= autoSaveInterval DEFAULT_PRINTER_SETTINGS <= 9007199254740)%Z
  /\ intervalTime DEFAULT_PRINTER_SETTINGS = Some 60000%Z.
Proof.
  assert (H : (5 <= autoSaveInterval DEFAULT_PRINTER_SETTINGS
               <= 9007199254740)%Z) by (cbn; lia).
  split; [exact H|].
  exact (proj1 (proj2 (autosave_period_bounds DEFAULT_PRINTER_SETTINGS)) H).
Defined.

(** ** More on the print run *)

(** The result of a run on a connected characteristic, in terms of the
    sequence of sends. *)
Lemma print_run_outcome
    (Buf Handle T Exn number : Type) (U : bluetoothUtils Buf)
    (sdp : Handle -> Buf -> T -> outcome Exn unit * T)
    (exnToString : Exn -> JSString) (toFixed2 : number -> JSString)
    (plus : number -> number -> number) (zero : number)
    (isTest : bool) (st : AppState Handle number) (char : Handle)
    (w : World T) :
  characteristic (bt st) = Some char ->
  let r :=
    printBluetoothDirect U sdp exnToString toFixed2 plus zero isTest st w in
  let s :=
    send_sequence sdp char (receipt U toFixed2 plus zero isTest st) w in
  fst r = Returned tt
  /\ isPrintConfirmOpen (snd r) = false
  /\ transport (snd r) = transport (snd s)
  /\ alerts (snd r)
     = match fst s with
       | Returned _ => alerts w
       | Thrown e =>
           alerts w ++ [lit "Ralat cetakan Bluetooth: " ++ exnToString e]
       end.
Proof.
  intros Hc r s. subst r. unfold printBluetoothDirect. rewrite Hc.
  unfold tryCatchFinally. rewrite printBody_sequence. fold s.
  destruct (send_sequence_frame sdp char
              (receipt U toFixed2 plus zero isTest st) w) as [Ha _].
  fold s in Ha. destruct s as [[[]|e] w']; cbn in *; rewrite Ha; auto.
Qed.

(** X4: whatever the transport does, a run on a connected characteristic
    returns normally and leaves the confirmation dialog closed; it shows
    no alert when every send is accepted and exactly one, the one that
    reports the caught value, when a send is rejected. *)
Theorem print_run_always_closes_dialog
    (Buf Handle T Exn number : Type) (U : bluetoothUtils Buf)
    (sdp : Handle -> Buf -> T -> outcome Exn unit * T)
    (exnToString : Exn -> JSString) (toFixed2 : number -> JSString)
    (plus : number -> number -> number) (zero : number)
    (isTest : bool) (st : AppState Handle number) (char : Handle)
    (w : World T) :
  characteristic (bt st) = Some char ->
  let r :=
    printBluetoothDirect U sdp exnToString toFixed2 plus zero isTest st w in
  let s :=
    send_sequence sdp char (receipt U toFixed2 plus zero isTest st) w in
  fst r = Returned tt
  /\ isPrintConfirmOpen (snd r) = false
  /\ transport (snd r) = transport (snd s)
  /\ alerts (snd r)
     = match fst s with
       | Returned _ => alerts w
       | Thrown e =>
           alerts w ++ [lit "Ralat cetakan Bluetooth: " ++ exnToString e]
       end.
Proof.
  apply print_run_outcome.
Qed.

Lemma print_run_always_closes_dialog_witness :
  characteristic (bt sample_state) = Some tt
  /\ isPrintConfirmOpen (snd (failing_run 4)) = false.
Proof.
  split; [reflexivity|].
  exact (proj1 (proj2
           (@print_run_always_closes_dialog _ _ _ _ _
              (commands sample_separator) (failing_at 4 tt)
              (fun _ : unit => lit "NetworkError") ringgit Nat.add 0 false
              sample_state tt (fresh []) eq_refl))).
Defined.

(** X5: the number of buffers a completed run hands to the transport: a
    customer receipt has 20 fixed ones, two more with bold headers, one
    for the phone and one for the address when the setting is on and the
    field is filled in, two per cart item and one per extra feed; a test
    print has 22, plus the bold pair and the feeds, whatever the cart
    holds. *)
Theorem number_of_sends
    (Buf Handle number : Type) (U : bluetoothUtils Buf)
    (toFixed2 : number -> JSString) (plus : number -> number -> number)
    (zero : number) (st : AppState Handle number) (char : Handle) :
  characteristic (bt st) = Some char ->
  let ps := printerSettings st in
  let cf := clientForm st in
  let bold_pair := if boldHeaders ps then 2 else 0 in
  let feeds := Z.to_nat (extraFeeds ps) in
  length (emitted U toFixed2 plus zero false st)
  = 20 + bold_pair
    + (if includePhone ps && truthy (ClientForm.phone cf) then 1 else 0)
    + (if includeAddress ps && truthy (ClientForm.address cf) then 1 else 0)
    + 2 * length (cart st) + feeds
  /\ length (emitted U toFixed2 plus zero true st) = 22 + bold_pair + feeds.
Proof.
  intros Hc ps cf bold_pair feeds.
  assert (Hitems : length (flat_map (itemLines U toFixed2) (cart st))
                   = 2 * length (cart st)).
  { induction (cart st) as [|i l IH]; [reflexivity|].
    cbn [flat_map itemLines app length]. rewrite IH. lia. }
  unfold emitted.
  rewrite !(printBluetoothDirect_recorder _ _ _ _ _ _ _ _ Hc).
  cbn [snd transport fresh app].
  unfold receipt, header, customerInfo, lineItems, totalBlock, footer, feed.
  fold ps cf. subst bold_pair feeds.
  rewrite !length_app, Hitems, repeat_length.
  cbn [negb andb].
  destruct (boldHeaders ps);
    destruct (includePhone ps && truthy (ClientForm.phone cf));
    destruct (includeAddress ps && truthy (ClientForm.address cf));
    cbn [length app]; split; lia.
Qed.

Lemma number_of_sends_witness :
  characteristic (bt sample_state) = Some tt
  /\ length (emitted (commands sample_separator) ringgit Nat.add 0 false
               sample_state) = 31.
Proof.
  split; [reflexivity|].
  exact (proj1 (@number_of_sends _ _ _ (commands sample_separator) ringgit
                  Nat.add 0 sample_state tt eq_refl)).
Defined.

Lemma send_sequence_transport_only
    (Buf Handle T Exn : Type)
    (sdp : Handle -> Buf -> T -> outcome Exn unit * T) (char : Handle)
    (bufs : list Buf) (w w' : World T) :
  transport w = transport w' ->
  fst (send_sequence sdp char bufs w) = fst (send_sequence sdp char bufs w')
  /\ transport (snd (send_sequence sdp char bufs w))
     = transport (snd (send_sequence sdp char bufs w')).
Proof.
  revert w w'. induction bufs as [|b bufs IH]; intros w w' Ht.
  - split; [reflexivity|exact Ht].
  - cbn [send_sequence]. unfold bind, await. rewrite Ht.
    destruct (sdp char b (transport w')) as [[[]|e] t'].
    + apply IH. reflexivity.
    + split; reflexivity.
Qed.

(** X6: the print button opens the confirmation dialog exactly when there
    is a characteristic, a customer name and at least one cart item;
    otherwise it shows one alert and opens nothing.  It never touches the
    transport.  The print confirmed from that dialog runs on the state of
    the moment of the confirmation: if a characteristic is still there, it
    sends the receipt of that state and closes the dialog; if the device
    has disconnected while the dialog was open, it sends nothing, shows
    the alert that asks to connect and leaves the dialog open. *)
Theorem print_button_guards
    (Buf Handle T Exn number : Type) (U : bluetoothUtils Buf)
    (sdp : Handle -> Buf -> T -> outcome Exn unit * T)
    (exnToString : Exn -> JSString) (toFixed2 : number -> JSString)
    (plus : number -> number -> number) (zero : number)
    (st st' : AppState Handle number) (w : World T) :
  isPrintConfirmOpen w = false ->
  let w1 := handleBluetoothPrintTrigger st w in
  let ready :=
    match characteristic (bt st) with Some _ => true | None => false end
    && truthy (ClientForm.name (clientForm st))
    && negb (Nat.eqb (length (cart st)) 0) in
  let r :=
    printBluetoothDirect U sdp exnToString toFixed2 plus zero false st' w1 in
  isPrintConfirmOpen w1 = ready
  /\ transport w1 = transport w
  /\ length (alerts w1) = length (alerts w) + (if ready then 0 else 1)
  /\ (ready = true ->
      match characteristic (bt st') with
      | Some char =>
          isPrintConfirmOpen (snd r) = false
          /\ transport (snd r)
             = transport
                 (snd (send_sequence sdp char
                         (receipt U toFixed2 plus zero false st') w))
      | None =>
          isPrintConfirmOpen (snd r) = true
          /\ transport (snd r) = transport w
          /\ alerts (snd r)
             = alerts w ++ [lit "Sila sambung Bluetooth dahulu"]
      end).
Proof.
  intros Hclosed w1 ready r.
  assert (Ht : transport w1 = transport w).
  { subst w1. unfold handleBluetoothPrintTrigger.
    destruct (characteristic (bt st)); [|reflexivity].
    destruct (truthy _); [|reflexivity].
    destruct (Nat.eqb _ _); reflexivity. }
  assert (Hflag : isPrintConfirmOpen w1 = ready).
  { subst w1 ready. unfold handleBluetoothPrintTrigger.
    destruct (characteristic (bt st)); [|exact Hclosed].
    destruct (truthy _); [|exact Hclosed].
    destruct (Nat.eqb _ _); [exact Hclosed|reflexivity]. }
  assert (Hal : length (alerts w1)
                = length (alerts w) + (if ready then 0 else 1)).
  { subst w1 ready. unfold handleBluetoothPrintTrigger.
    destruct (characteristic (bt st));
      [|cbn; rewrite length_app; reflexivity].
    destruct (truthy _); [|cbn; rewrite length_app; reflexivity].
    destruct (Nat.eqb _ _); cbn; [rewrite length_app; reflexivity|lia]. }
  split; [exact Hflag|]. split; [exact Ht|]. split; [exact Hal|].
  intros Hready.
  assert (Hsame : alerts w1 = alerts w).
  { subst w1 ready. unfold handleBluetoothPrintTrigger.
    destruct (characteristic (bt st)); [|discriminate Hready].
    destruct (truthy _); [|discriminate Hready].
    destruct (Nat.eqb _ _); [discriminate Hready|reflexivity]. }
  destruct (characteristic (bt st')) as [char|] eqn:Hc.
  - destruct (@print_run_outcome _ _ _ _ _ U sdp exnToString
                toFixed2 plus zero false st' char w1 Hc)
      as (_ & Hp & Htr & _).
    split; [exact Hp|].
    subst r. rewrite Htr. apply send_sequence_transport_only. exact Ht.
  - subst r.
    rewrite (printBluetoothDirect_unlinked U sdp exnToString toFixed2 plus
               zero false st' w1 Hc).
    cbn [snd isPrintConfirmOpen transport alerts].
    rewrite Hflag, Ht, Hsame. repeat split. exact Hready.
Qed.

Lemma print_button_guards_witness :
  isPrintConfirmOpen (idle (@nil PrinterCommand)) = false
  /\ isPrintConfirmOpen
       (handleBluetoothPrintTrigger sample_state
          (idle (@nil PrinterCommand))) = true
  /\ isPrintConfirmOpen
       (snd (printBluetoothDirect (commands sample_separator)
               (@recorder PrinterCommand unit unit) (fun _ : unit => [])
               ringgit Nat.add 0 false unlinked_state
               (handleBluetoothPrintTrigger sample_state
                  (idle (@nil PrinterCommand))))) = true.
Proof.
  split; [reflexivity|].
  pose proof (@print_button_guards _ _ _ _ _ (commands sample_separator)
                (@recorder PrinterCommand unit unit) (fun _ : unit => [])
                ringgit Nat.add 0 sample_state unlinked_state
                (idle (@nil PrinterCommand)) eq_refl) as H.
  split; [exact (proj1 H)|].
  exact (proj1 (proj2 (proj2 (proj2 H)) eq_refl)).
Defined.

(** ** Cart and records *)

Lemma str_eqb_eq (a b : JSString) : str_eqb a b = true <-> a = b.
Proof.
  unfold str_eqb. destruct (list_eq_dec N.eq_dec a b); split;
    congruence.
Qed.

Lemma str_eqb_neq (a b : JSString) : str_eqb a b = false <-> a <> b.
Proof.
  unfold str_eqb. destruct (list_eq_dec N.eq_dec a b); split;
    congruence.
Qed.

Lemma str_eqb_refl (a : JSString) : str_eqb a a = true.
Proof.
  now apply str_eqb_eq.
Qed.

Lemma filter_all (A : Type) (f : A -> bool) (l : list A) :
  (forall x, In x l -> f x = true) -> filter f l = l.
Proof.
  induction l as [|x l IH]; intros H; [reflexivity|].
  cbn. rewrite (H x (or_introl eq_refl)). f_equal.
  apply IH. intros y Hy. apply H. now right.
Qed.



(** X8: [saveRecord] refuses a form without a customer name and a form
    with an empty cart: it shows one alert and changes nothing else, in
    particular neither the records nor the form, the cart, the stored
    draft or the timers. *)
Theorem saveRecord_refuses_incomplete_forms
    (Handle number : Type) (plus : number -> number -> number)
    (zero : number) (now today : JSString)
    (c : Component.t Handle number) :
  ClientForm.name (clientForm (Component.app c)) = []
  \/ cart (Component.app c) = [] ->
  exists msg,
    saveRecord plus zero now today c = show msg c
    /\ (msg = lit "Sila masukkan nama pelanggan"
        \/ msg = lit "Sila pilih sekurang-kurangnya satu servis").
Proof.
  intros H. unfold saveRecord.
  destruct (ClientForm.name (clientForm (Component.app c))) as [|x n] eqn:Hn.
  - eexists. split; [reflexivity|]. now left.
  - destruct H as [H|H]; [discriminate H|]. rewrite H. cbn.
    eexists. split; [reflexivity|]. now right.
Qed.

Lemma saveRecord_refuses_incomplete_forms_witness :
  cart (Component.app (setCart [] sample_component)) = []
  /\ Component.clients
       (saveRecord Nat.add 0 (lit "1") (lit "2024-02-01")
          (setCart [] sample_component)) = [].
Proof.
  split; [reflexivity|].
  destruct (@saveRecord_refuses_incomplete_forms unit nat Nat.add 0
              (lit "1") (lit "2024-02-01") (setCart [] sample_component)
              (or_intror eq_refl)) as (msg & E & _).
  rewrite E. reflexivity.
Defined.

Section HandlerFacts.

Variables Handle number : Type.
Variable plus : number -> number -> number.
Variable zero : number.

Local Abbreviation State := (Component.t Handle number).
Local Abbreviation ids := (map (@ClientRecord.id number)).

(** What an accepted [saveRecord] leaves behind. *)
Lemma saveRecord_accepted (now today : JSString) (c : State) :
  truthy (ClientForm.name (clientForm (Component.app c))) = true ->
  cart (Component.app c) <> [] ->
  let c' := saveRecord plus zero now today c in
  let record := recordOf plus zero now c in
  Component.clients c'
  = match editing (Component.editId c) with
    | Some e =>
        map (fun r => if str_eqb (ClientRecord.id r) e then record else r)
          (Component.clients c)
    | None => record :: Component.clients c
    end
  /\ Component.shown c'
     = Component.shown c
       ++ [match editing (Component.editId c) with
           | Some _ => lit "Rekod berjaya dikemaskini."
           | None => lit "Rekod baru berjaya disimpan."
           end]
  /\ cart (Component.app c') = []
  /\ Component.editId c' = None
  /\ clientForm (Component.app c')
     = {| ClientForm.date := today; ClientForm.name := [];
          ClientForm.phone := []; ClientForm.address := [];
          ClientForm.payment := TUNAI |}
  /\ Component.localStorage c'
     = removeItem (lit "hm_order_draft") (Component.localStorage c)
  /\ Component.timers c'
     = Component.timers c
       ++ (if autoSync (printerSettings (Component.app c))
           then [(500%Z,
                  AutoSync (printerSettings (Component.app c))
                    (Component.clients c))]
           else []).
Proof.
  intros Hname Hcart c' record. subst c' record. unfold saveRecord.
  rewrite Hname. cbn [negb].
  destruct (cart (Component.app c)) as [|i l] eqn:Hc; [congruence|].
  cbn [length Nat.eqb].
  destruct (editing (Component.editId c));
    destruct (autoSync (printerSettings (Component.app c)));
    cbn; rewrite ?app_nil_r; repeat split; reflexivity.
Qed.




Lemma delete_keeps_others (id e : JSString)
    (l : list (ClientRecord.t number)) :
  e <> id -> In e (ids l) ->
  In e (ids (filter (fun r => negb (str_eqb (ClientRecord.id r) id)) l)).
Proof.
  intros Hne H. apply in_map_iff in H. destruct H as (r & Hr & Hin).
  apply in_map_iff. exists r. split; [exact Hr|].
  apply filter_In. split; [exact Hin|].
  apply negb_true_iff, str_eqb_neq. congruence.
Qed.

Lemma editing_truthy (o : option JSString) (e : JSString) :
  editing o = Some e -> o = Some e.
Proof.
  destruct o as [s|]; cbn; [|discriminate].
  destruct (truthy s); [congruence|discriminate].
Qed.

End HandlerFacts.



(** What an accepted [saveRecord] clears besides the form. *)
Lemma saveRecord_clears_ai
    (Handle number : Type) (plus : number -> number -> number)
    (zero : number) (now today : JSString)
    (c : Component.t Handle number) :
  truthy (ClientForm.name (clientForm (Component.app c))) = true ->
  cart (Component.app c) <> [] ->
  let c' := saveRecord plus zero now today c in
  Component.aiSummary c' = [] /\ Component.legalTips c' = []
  /\ bt (Component.app c') = bt (Component.app c)
  /\ printerSettings (Component.app c') = printerSettings (Component.app c).
Proof.
  intros Hname Hcart c'. subst c'. unfold saveRecord.
  rewrite Hname. cbn [negb].
  destruct (cart (Component.app c)) as [|i l] eqn:Hc; [congruence|].
  cbn [length Nat.eqb].
  destruct (editing (Component.editId c));
    destruct (autoSync (printerSettings (Component.app c)));
    cbn; repeat split; reflexivity.
Qed.

(** X10: saving a new record puts it first in the list under the id
    [now], with a copy of the cart, and reports it; if that id is not in
    use and the ids were pairwise distinct, they still are.  Afterwards
    the whole form is blank again (no name, phone or address, payment back
    to cash, today's date), the cart is empty, nothing is being edited,
    the AI summary and tips are cleared and the stored draft is gone;
    the settings are untouched. *)
Theorem saving_a_new_record
    (Handle number : Type) (plus : number -> number -> number)
    (zero : number) (now today : JSString)
    (c : Component.t Handle number) :
  truthy (ClientForm.name (clientForm (Component.app c))) = true ->
  cart (Component.app c) <> [] ->
  editing (Component.editId c) = None ->
  ~ In now (map (@ClientRecord.id number) (Component.clients c)) ->
  NoDup (map (@ClientRecord.id number) (Component.clients c)) ->
  let c' := saveRecord plus zero now today c in
  let record := recordOf plus zero now c in
  Component.clients c' = record :: Component.clients c
  /\ ClientRecord.id record = now
  /\ ClientRecord.cartItems record = Some (cart (Component.app c))
  /\ NoDup (map (@ClientRecord.id number) (Component.clients c'))
  /\ Component.shown c'
     = Component.shown c ++ [lit "Rekod baru berjaya disimpan."]
  /\ cart (Component.app c') = []
  /\ Component.editId c' = None
  /\ clientForm (Component.app c')
     = {| ClientForm.date := today; ClientForm.name := [];
          ClientForm.phone := []; ClientForm.address := [];
          ClientForm.payment := TUNAI |}
  /\ Component.aiSummary c' = []
  /\ Component.legalTips c' = []
  /\ printerSettings (Component.app c') = printerSettings (Component.app c)
  /\ Component.localStorage c'
     = removeItem (lit "hm_order_draft") (Component.localStorage c)
  /\ ~ In (lit "hm_order_draft") (map fst (Component.localStorage c')).
Proof.
  intros Hname Hcart He Hfresh Hnd c' record.
  destruct (saveRecord_accepted plus zero now today c Hname Hcart)
    as (Hcl & Hsh & Hc & Hed & Hform & Hst & _).
  destruct (saveRecord_clears_ai plus zero now today c Hname Hcart)
    as (Hai & Htips & _ & Hps).
  fold c' record in Hcl, Hsh, Hc, Hed, Hform, Hst, Hai, Htips, Hps.
  rewrite He in Hcl, Hsh.
  assert (Hid : ClientRecord.id record = now).
  { subst record. unfold recordOf. cbn. now rewrite He. }
  split; [exact Hcl|]. split; [exact Hid|]. split; [reflexivity|].
  split.
  { rewrite Hcl. cbn [map]. rewrite Hid. constructor; assumption. }
  split; [exact Hsh|]. split; [exact Hc|]. split; [exact Hed|].
  split; [exact Hform|]. split; [exact Hai|]. split; [exact Htips|].
  split; [exact Hps|]. split; [exact Hst|].
  rewrite Hst. unfold removeItem. intros Hin. apply in_map_iff in Hin.
  destruct Hin as ([k v] & Hk & Hin). cbn in Hk. subst k.
  apply filter_In in Hin. destruct Hin as [_ Hf]. cbn [fst] in Hf.
  rewrite str_eqb_refl in Hf. discriminate Hf.
Qed.

Lemma saving_a_new_record_witness :
  truthy (ClientForm.name (clientForm (Component.app stocked_component)))
  = true
  /\ cart (Component.app stocked_component) <> []
  /\ editing (Component.editId stocked_component) = None
  /\ ~ In (lit "1700000000000")
         (map (@ClientRecord.id nat) (Component.clients stocked_component))
  /\ NoDup (map (@ClientRecord.id nat)
              (Component.clients stocked_component))
  /\ map (@ClientRecord.id nat)
       (Component.clients
          (saveRecord Nat.add 0 (lit "1700000000000") (lit "2024-02-01")
             stocked_component))
     = [lit "1700000000000"; lit "77"; lit "5"].
Proof.
  assert (H1 : truthy (ClientForm.name
                         (clientForm (Component.app stocked_component)))
               = true) by reflexivity.
  assert (H2 : cart (Component.app stocked_component) <> [])
    by discriminate.
  assert (H3 : editing (Component.editId stocked_component) = None)
    by reflexivity.
  assert (H4 : ~ In (lit "1700000000000")
                 (map (@ClientRecord.id nat)
                    (Component.clients stocked_component))).
  { intros [H|[H|[]]]; discriminate H. }
  assert (H5 : NoDup (map (@ClientRecord.id nat)
                        (Component.clients stocked_component))).
  { constructor.
    - intros [H|[]]. discriminate H.
    - constructor; [intros []|constructor]. }
  split; [exact H1|]. split; [exact H2|]. split; [exact H3|].
  split; [exact H4|]. split; [exact H5|].
  rewrite (proj1 (@saving_a_new_record unit nat Nat.add 0
                    (lit "1700000000000") (lit "2024-02-01")
                    stocked_component H1 H2 H3 H4 H5)).
  reflexivity.
Defined.

(** X11: the handlers keep the edit marker valid.  If [editId], when it is
    a non-empty string, is the id of some record, then this is still so
    after [saveRecord], after [deleteClient] (confirmed or not, of any
    id), after [editClient] of a record of the list, after [resetForm] and
    after the cart handlers.  With a valid marker a saved edit is never
    lost. *)
Theorem edit_marker_stays_valid
    (Handle number : Type) (plus : number -> number -> number)
    (zero : number) (now today id : JSString) (confirmed : bool)
    (service : CartItem.t number) (c : Component.t Handle number) :
  editing_names_a_record c ->
  editing_names_a_record (saveRecord plus zero now today c)
  /\ editing_names_a_record (deleteClient confirmed today id c)
  /\ (forall r, In r (Component.clients c) ->
                editing_names_a_record (editClient today r c))
  /\ editing_names_a_record (resetForm today c)
  /\ editing_names_a_record (addToCart now service c)
  /\ editing_names_a_record (removeFromCart id c).
Proof.
  intros Hinv. unfold editing_names_a_record in *.
  split; [|split; [|split; [|split; [|split]]]].
  - unfold saveRecord.
    destruct (negb (truthy _)); [exact Hinv|].
    destruct (Nat.eqb _ 0); [exact Hinv|].
    destruct (editing (Component.editId c));
      destruct (autoSync _); exact I.
  - unfold deleteClient. destruct confirmed; [|exact Hinv].
    destruct (Component.editId c) as [e|] eqn:He;
      [|cbn [setClients Component.editId]; rewrite He; exact I].
    destruct (str_eqb e id) eqn:E; [exact I|].
    cbn [setClients Component.editId Component.clients]. rewrite He.
    cbn [editing] in *. destruct (truthy e); [|exact I].
    apply delete_keeps_others; [|exact Hinv].
    now apply str_eqb_neq.
  - intros r Hr. cbn. destruct (truthy (ClientRecord.id r)); [|exact I].
    apply in_map. exact Hr.
  - exact I.
  - exact Hinv.
  - exact Hinv.
Qed.

Lemma edit_marker_stays_valid_witness :
  editing_names_a_record busy_component
  /\ Component.editId busy_component = Some (lit "77")
  /\ editing_names_a_record
       (deleteClient true (lit "2024-02-01") (lit "5") busy_component)
  /\ editing_names_a_record
       (deleteClient true (lit "2024-02-01") (lit "77") busy_component)
  /\ editing_names_a_record
       (saveRecord Nat.add 0 (lit "1") (lit "2024-02-01") busy_component).
Proof.
  assert (H : editing_names_a_record busy_component).
  { left. reflexivity. }
  split; [exact H|]. split; [reflexivity|].
  split; [|split].
  - exact (proj1 (proj2
             (@edit_marker_stays_valid unit nat Nat.add 0 (lit "1")
                (lit "2024-02-01") (lit "5") true
                {| CartItem.id := lit "9"; CartItem.name := lit "Faraid";
                   CartItem.price := 80 |} busy_component H))).
  - exact (proj1 (proj2
             (@edit_marker_stays_valid unit nat Nat.add 0 (lit "1")
                (lit "2024-02-01") (lit "77") true
                {| CartItem.id := lit "9"; CartItem.name := lit "Faraid";
                   CartItem.price := 80 |} busy_component H))).
  - exact (proj1
             (@edit_marker_stays_valid unit nat Nat.add 0 (lit "1")
                (lit "2024-02-01") (lit "5") true
                {| CartItem.id := lit "9"; CartItem.name := lit "Faraid";
                   CartItem.price := 80 |} busy_component H)).
Defined.

(** X12: opening for edit the record that [saveRecord] has just built
    from a form and a cart gives that form and that cart back, and marks
    the record as the one being edited, provided the date of the form is
    of the shape [y-m-d] with parts free of dashes and slashes (the date
    goes through the display format and back). *)
Theorem saved_record_reopens_as_entered
    (Handle number : Type) (plus : number -> number -> number)
    (zero : number) (now today later y m d : JSString)
    (c c' : Component.t Handle number) :
  includes 45 y = false -> includes 45 m = false -> includes 45 d = false ->
  includes 47 y = false -> includes 47 m = false -> includes 47 d = false ->
  ClientForm.date (clientForm (Component.app c))
  = y ++ lit "-" ++ m ++ lit "-" ++ d ->
  let record := recordOf plus zero now c in
  let reopened := editClient later record c' in
  clientForm (Component.app reopened) = clientForm (Component.app c)
  /\ cart (Component.app reopened) = cart (Component.app c)
  /\ Component.editId reopened = Some (ClientRecord.id record)
  /\ Component.clients reopened = Component.clients c'.
Proof.
  intros Hy Hm Hd Sy Sm Sd Hdate record reopened.
  subst reopened record. cbn.
  repeat split.
  rewrite Hdate.
  rewrite (proj1 (proj2 (proj2
             (date_parts_round_trip later y m d Hy Hm Hd Sy Sm Sd)))).
  rewrite <- Hdate.
  destruct (clientForm (Component.app c)); reflexivity.
Qed.

Lemma saved_record_reopens_as_entered_witness :
  includes 45 (lit "2024") = false
  /\ ClientForm.date (clientForm (Component.app sample_component))
     = lit "2024" ++ lit "-" ++ lit "01" ++ lit "-" ++ lit "31"
  /\ clientForm
       (Component.app
          (editClient (lit "2030-01-01")
             (recordOf Nat.add 0 (lit "1") sample_component)
             (saveRecord Nat.add 0 (lit "1") (lit "2024-02-01")
                sample_component)))
     = sample_form.
Proof.
  split; [reflexivity|]. split; [reflexivity|].
  exact (proj1 (@saved_record_reopens_as_entered unit nat Nat.add 0
                  (lit "1") (lit "2024-02-01") (lit "2030-01-01")
                  (lit "2024") (lit "01") (lit "31") sample_component
                  (saveRecord Nat.add 0 (lit "1") (lit "2024-02-01")
                     sample_component)
                  eq_refl eq_refl eq_refl eq_refl eq_refl eq_refl eq_refl)).
Defined.

(** The records after a confirmed delete. *)
Lemma deleteClient_clients
    (Handle number : Type) (today id : JSString)
    (c : Component.t Handle number) :
  Component.clients (deleteClient true today id c)
  = filter (fun r => negb (str_eqb (ClientRecord.id r) id))
      (Component.clients c).
Proof.
  unfold deleteClient.
  destruct (Component.editId c) as [e|]; [|reflexivity].
  destruct (str_eqb e id); reflexivity.
Qed.

(** X13: [deleteClient], when the confirmation is declined, changes
    nothing.  Confirmed, it leaves exactly the records whose id differs
    from the given one, in their order, so no record with that id
    remains and the list shrinks by the number of records that carried
    it.  If the deleted id is the one being edited, the form, the cart and
    the edit marker are reset as by [resetForm]; otherwise the form, the
    cart and the edit marker are untouched.  All this holds in every
    state: blank or filled form, editing or not. *)
Theorem deleteClient_removes_by_id
    (Handle number : Type) (today id : JSString)
    (c : Component.t Handle number) :
  let c' := deleteClient true today id c in
  let others :=
    filter (fun r => negb (str_eqb (ClientRecord.id r) id))
      (Component.clients c) in
  deleteClient false today id c = c
  /\ Component.clients c' = others
  /\ ~ In id (map (@ClientRecord.id number) (Component.clients c'))
  /\ length (Component.clients c')
       + length (filter (fun r => str_eqb (ClientRecord.id r) id)
                   (Component.clients c))
     = length (Component.clients c)
  /\ (Component.editId c = Some id ->
      c' = resetForm today (setClients others c))
  /\ (Component.editId c <> Some id -> c' = setClients others c).
Proof.
  cbv zeta. split; [reflexivity|].
  split; [apply deleteClient_clients|]. split; [|split; [|split]].
  - rewrite deleteClient_clients. intros Hin. apply in_map_iff in Hin.
    destruct Hin as (r & Hr & Hin). apply filter_In in Hin.
    destruct Hin as [_ Hf]. rewrite Hr, str_eqb_refl in Hf. discriminate Hf.
  - rewrite deleteClient_clients.
    induction (Component.clients c) as [|r l IH]; [reflexivity|].
    cbn [filter]. destruct (str_eqb (ClientRecord.id r) id); cbn [negb length];
      lia.
  - intros He. unfold deleteClient. rewrite He, str_eqb_refl. reflexivity.
  - intros Hne. unfold deleteClient.
    destruct (Component.editId c) as [e|]; [|reflexivity].
    destruct (str_eqb e id) eqn:E; [|reflexivity].
    apply str_eqb_eq in E. congruence.
Qed.

(** X22: deleting the record that was just saved as new, under an id no
    other record carries, gives back the list of records as it was before
    the save. *)
Theorem delete_undoes_a_new_save
    (Handle number : Type) (plus : number -> number -> number)
    (zero : number) (now today later : JSString)
    (c : Component.t Handle number) :
  truthy (ClientForm.name (clientForm (Component.app c))) = true ->
  cart (Component.app c) <> [] ->
  editing (Component.editId c) = None ->
  ~ In now (map (@ClientRecord.id number) (Component.clients c)) ->
  Component.clients (saveRecord plus zero now today c)
  = recordOf plus zero now c :: Component.clients c
  /\ Component.clients
       (deleteClient true later now (saveRecord plus zero now today c))
     = Component.clients c.
Proof.
  intros Hname Hcart He Hfresh.
  destruct (saveRecord_accepted plus zero now today c Hname Hcart)
    as (Hsaved & _).
  rewrite He in Hsaved. split; [exact Hsaved|].
  rewrite deleteClient_clients, Hsaved.
  cbn [filter]. unfold recordOf at 1. cbn [ClientRecord.id].
  rewrite He, str_eqb_refl. cbn [negb].
  apply filter_all. intros r Hr.
  apply negb_true_iff, str_eqb_neq. intros E. apply Hfresh.
  rewrite <- E. now apply in_map.
Qed.

Lemma delete_undoes_a_new_save_witness :
  truthy (ClientForm.name (clientForm (Component.app stocked_component)))
  = true
  /\ cart (Component.app stocked_component) <> []
  /\ editing (Component.editId stocked_component) = None
  /\ ~ In (lit "1700000000000")
         (map (@ClientRecord.id nat) (Component.clients stocked_component))
  /\ Component.clients
       (deleteClient true (lit "2024-02-02") (lit "1700000000000")
          (saveRecord Nat.add 0 (lit "1700000000000") (lit "2024-02-01")
             stocked_component))
     = [sample_record "77" "Siti"; sample_record "5" "Abu"].
Proof.
  assert (H1 : truthy (ClientForm.name
                         (clientForm (Component.app stocked_component)))
               = true) by reflexivity.
  assert (H2 : cart (Component.app stocked_component) <> [])
    by discriminate.
  assert (H3 : editing (Component.editId stocked_component) = None)
    by reflexivity.
  assert (H4 : ~ In (lit "1700000000000")
                 (map (@ClientRecord.id nat)
                    (Component.clients stocked_component))).
  { intros [H|[H|[]]]; discriminate H. }
  split; [exact H1|]. split; [exact H2|]. split; [exact H3|].
  split; [exact H4|].
  exact (proj2 (@delete_undoes_a_new_save unit nat Nat.add 0
                  (lit "1700000000000") (lit "2024-02-01")
                  (lit "2024-02-02") stocked_component H1 H2 H3 H4)).
Defined.

(** ** Synchronisation *)

(** X14: an automatic synchronisation never shows an alert, on any path;
    a manual one shows exactly one.  Neither changes the records, the
    form, the cart or the edit marker. *)
Theorem auto_sync_is_silent
    (Handle number : Type) (fetch : Request number -> bool)
    (stamp clock : JSString) (isAuto : bool)
    (c : Component.t Handle number) :
  let c' := syncToGoogleSheet fetch stamp clock isAuto c in
  (if isAuto then Component.shown c' = Component.shown c
   else exists msg, Component.shown c' = Component.shown c ++ [msg])
  /\ Component.clients c' = Component.clients c
  /\ Component.app c' = Component.app c
  /\ Component.editId c' = Component.editId c.
Proof.
  cbv zeta. unfold syncToGoogleSheet, syncWith.
  destruct (googleAppsScriptUrl (printerSettings (Component.app c)))
    as [[|x address]|].
  - destruct isAuto; cbn; repeat split; eauto.
  - destruct (Nat.eqb (length (Component.clients c)) 0).
    + destruct isAuto; cbn; repeat split; eauto.
    + destruct (fetch _); destruct isAuto; cbn; repeat split; eauto.
  - destruct isAuto; cbn; repeat split; eauto.
Qed.

(** X15: a synchronisation makes at most one request, and makes one
    exactly when an Apps Script address is set and there is at least one
    record; the request goes to that address and carries one row per
    record, in order.  Without a request the syncing flag, the status and
    the time of the last synchronisation are untouched.  With one, the
    syncing flag is off afterwards whether the request resolved or not,
    the status says which it was, and the time of the last synchronisation
    changes only on success. *)
Theorem sync_makes_one_request
    (Handle number : Type) (fetch : Request number -> bool)
    (stamp clock : JSString) (isAuto : bool)
    (c : Component.t Handle number) :
  let c' := syncToGoogleSheet fetch stamp clock isAuto c in
  let target :=
    match googleAppsScriptUrl (printerSettings (Component.app c)) with
    | Some (x :: address) =>
        if Nat.eqb (length (Component.clients c)) 0 then None
        else Some (x :: address)
    | _ => None
    end in
  match target with
  | None =>
      Component.requests c' = Component.requests c
      /\ Component.isSyncing c' = Component.isSyncing c
      /\ Component.lastSyncStatus c' = Component.lastSyncStatus c
      /\ Component.lastSyncedAt c' = Component.lastSyncedAt c
      /\ Component.timers c' = Component.timers c
  | Some address =>
      let request :=
        {| url := address; timestamp := stamp; isAutoSync := isAuto;
           data := map (@syncRow number) (Component.clients c) |} in
      Component.requests c' = Component.requests c ++ [request]
      /\ length (data request) = length (Component.clients c)
      /\ Component.isSyncing c' = false
      /\ Component.lastSyncStatus c'
         = Some (if fetch request then success else error)
      /\ Component.lastSyncedAt c'
         = (if fetch request then Some clock else Component.lastSyncedAt c)
  end.
Proof.
  cbv zeta. unfold syncToGoogleSheet, syncWith.
  destruct (googleAppsScriptUrl (printerSettings (Component.app c)))
    as [[|x address]|].
  - destruct isAuto; cbn; repeat split.
  - destruct (Nat.eqb (length (Component.clients c)) 0).
    + destruct isAuto; cbn; repeat split.
    + cbn [setIsSyncing setLastSyncStatus logRequest Component.clients].
      destruct (fetch _); destruct isAuto; cbn;
        rewrite ?length_map; repeat split.
  - destruct isAuto; cbn; repeat split.
Qed.

(** X16: the automatic synchronisation that [saveRecord] schedules runs
    half a second later with the records its own render saw, that is the
    records before the save.  Its request, if it makes one, carries one
    row per record of the old list, so the record just saved as new is not
    in it; and after saving the very first record it makes no request at
    all. *)
Theorem autosync_after_save_sends_the_old_records
    (Handle number : Type) (plus : number -> number -> number)
    (zero : number) (fetch : Request number -> bool)
    (now today stamp clock : JSString) (c : Component.t Handle number) :
  truthy (ClientForm.name (clientForm (Component.app c))) = true ->
  cart (Component.app c) <> [] ->
  editing (Component.editId c) = None ->
  autoSync (printerSettings (Component.app c)) = true ->
  let c' := saveRecord plus zero now today c in
  exists task,
    Component.timers c' = Component.timers c ++ [(500%Z, task)]
    /\ Component.clients c' = recordOf plus zero now c :: Component.clients c
    /\ (forall r,
          In r (Component.requests (runTask fetch stamp clock task c')) ->
          In r (Component.requests c)
          \/ data r = map (@syncRow number) (Component.clients c))
    /\ (Component.clients c = [] ->
        Component.requests (runTask fetch stamp clock task c')
        = Component.requests c).
Proof.
  intros Hname Hcart He Hauto c'.
  destruct (saveRecord_accepted plus zero now today c Hname Hcart)
    as (Hcl & _ & _ & _ & _ & _ & Htm).
  fold c' in Hcl, Htm. rewrite He in Hcl. rewrite Hauto in Htm.
  assert (Hreq : Component.requests c' = Component.requests c).
  { subst c'. unfold saveRecord. rewrite Hname. cbn [negb].
    destruct (cart (Component.app c)); [congruence|]. cbn [length Nat.eqb].
    rewrite He, Hauto. reflexivity. }
  eexists. split; [exact Htm|]. split; [exact Hcl|].
  cbn [runTask]. unfold syncWith.
  destruct (googleAppsScriptUrl (printerSettings (Component.app c)))
    as [[|x address]|].
  - split; [intros r Hr; left; now rewrite <- Hreq|intros _; exact Hreq].
  - destruct (Component.clients c) as [|r0 l] eqn:Hc0.
    + cbn [length Nat.eqb].
      split; [intros r Hr; left; now rewrite <- Hreq|intros _; exact Hreq].
    + split; [|discriminate]. 
      intros r Hr.
      assert (Hlog : In r (Component.requests c'
                           ++ [{| url := x :: address; timestamp := stamp;
                                  isAutoSync := true;
                                  data := map (@syncRow number) (r0 :: l) |}])).
      { revert Hr. cbn [length Nat.eqb]. destruct (fetch _); cbn; auto. }
      apply in_app_or in Hlog. destruct Hlog as [Hold|[Hnew|[]]].
      * left. now rewrite <- Hreq.
      * right. subst r. reflexivity.
  - split; [intros r Hr; left; now rewrite <- Hreq|intros _; exact Hreq].
Qed.

Lemma autosync_after_save_sends_the_old_records_witness :
  let c :=
    Component.Build_t
      {| bt := sample_bt (Some tt);
         printerSettings :=
           {| paperWidth := W58mm; fontSize := Normal; extraFeeds := 3;
              boldHeaders := true; footerText := [];
              googleSheetUrl := None;
              googleAppsScriptUrl := Some (lit "https://example.test/exec");
              autoSaveInterval := 60; autoSync := true;
              includePhone := true; includeAddress := true |};
         clientForm := sample_form;
         cart := sample_cart |}
      [] None [] [] false false false false None None [] [] [] [] in
  autoSync (printerSettings (Component.app c)) = true
  /\ Component.requests
       (runTask (fun _ => true) (lit "t") (lit "10:00")
          (AutoSync (printerSettings (Component.app c))
             (Component.clients c))
          (saveRecord Nat.add 0 (lit "1") (lit "2024-02-01") c))
     = [].
Proof.
  intros c. split; [reflexivity|].
  destruct (@autosync_after_save_sends_the_old_records unit nat Nat.add 0
              (fun _ => true) (lit "1") (lit "2024-02-01") (lit "t")
              (lit "10:00") c eq_refl
              ltac:(discriminate) eq_refl eq_refl)
    as (task & Htm & _ & _ & Hnone).
  cbn in Htm. injection Htm as Htask. subst task.
  exact (Hnone eq_refl).
Defined.

(** ** Export *)

(** X17: doubling the quotes of a field loses nothing and cannot run into
    what follows the field.  The escaped text is longer than the field by
    the number of quotes in it; and if two fields, each escaped, closed by
    a quote and followed by text that does not begin with a quote, give
    the same text, then the fields are equal and so is what follows. *)
Theorem escaped_field_reads_back (s1 s2 rest1 rest2 : JSString) :
  hd_error rest1 <> Some 34%N ->
  hd_error rest2 <> Some 34%N ->
  escapeQuotes s1 ++ 34%N :: rest1 = escapeQuotes s2 ++ 34%N :: rest2 ->
  s1 = s2 /\ rest1 = rest2
  /\ length (escapeQuotes s1) = length s1 + count_occ N.eq_dec s1 34%N.
Proof.
  intros H1 H2 E.
  assert (Hlen : forall s,
             length (escapeQuotes s) = length s + count_occ N.eq_dec s 34%N).
  { induction s as [|ch s IH]; [reflexivity|].
    cbn [escapeQuotes flat_map count_occ]. fold (escapeQuotes s).
    rewrite length_app, IH.
    destruct (N.eqb_spec ch 34) as [->|Hne].
    - destruct (N.eq_dec 34 34); [cbn; lia|congruence].
    - destruct (N.eq_dec ch 34); [congruence|cbn; lia]. }
  assert (Hinj : s1 = s2 /\ rest1 = rest2).
  { clear Hlen. revert s2 E.
    induction s1 as [|a s1 IH]; intros s2 E.
    - destruct s2 as [|b s2]; cbn in E.
      + injection E as E. now split.
      + exfalso. fold (escapeQuotes s2) in E.
        destruct (N.eqb_spec b 34) as [->|Hne]; cbn in E.
        * injection E as E. subst rest1. apply H1. reflexivity.
        * injection E as E _. congruence.
    - cbn [escapeQuotes flat_map] in E. fold (escapeQuotes s1) in E.
      destruct s2 as [|b s2].
      + exfalso. cbn in E.
        destruct (N.eqb_spec a 34) as [->|Hne]; cbn in E.
        * injection E as E. subst rest2. apply H2. reflexivity.
        * injection E as E _. congruence.
      + cbn [escapeQuotes flat_map] in E. fold (escapeQuotes s2) in E.
        destruct (N.eqb_spec a 34) as [->|Ha];
          destruct (N.eqb_spec b 34) as [->|Hb]; cbn in E.
        * injection E as E. destruct (IH s2 E) as [-> ->]. now split.
        * injection E as E _. congruence.
        * injection E as E _. congruence.
        * injection E as Eab E. subst b.
          destruct (IH s2 E) as [-> ->]. now split. }
  destruct Hinj as [Hs Hr]. repeat split; [exact Hs|exact Hr|apply Hlen].
Qed.

Lemma escaped_field_reads_back_witness :
  hd_error (lit ",x") <> Some 34%N
  /\ length (escapeQuotes [65; 34; 66]%N) = 3 + 1.
Proof.
  assert (H : hd_error (lit ",x") <> Some 34%N) by discriminate.
  split; [exact H|].
  exact (proj2 (proj2 (@escaped_field_reads_back [65; 34; 66]%N
                         [65; 34; 66]%N (lit ",x") (lit ",x") H H eq_refl))).
Defined.

(** ** The AI helpers *)

(** Both service functions catch everything. *)
Lemma ai_service_returns
    (Exn Value : Type)
    (generateContent : GenRequest -> outcome Exn (option JSString))
    (JSON_parse : JSString -> outcome Exn Value)
    (apiKey : option JSString) (services : list JSString)
    (clientInfo : JSString) :
  let summary :=
    analyzeLegalServices generateContent apiKey services clientInfo in
  let advice :=
    generateLegalAdvice generateContent JSON_parse apiKey services in
  (exists text, fst summary = Returned text)
  /\ (exists a, fst advice = Returned a)
  /\ length (snd summary) = (if hasKey apiKey then 1 else 0)
  /\ length (snd advice) = (if hasKey apiKey then 1 else 0)
  /\ (hasKey apiKey = true ->
      (forall r, succeeded (generateContent r) = false) ->
      exists tips,
        fst advice = Returned (TipsObject tips) /\ length tips = 3).
Proof.
  cbv zeta. unfold analyzeLegalServices, generateLegalAdvice.
  destruct (hasKey apiKey); cbn [negb].
  - split; [|split; [|split; [|split]]].
    + destruct (generateContent _) as [t|e]; cbn; eauto.
    + destruct (generateContent _) as [[t|]|e]; cbn; eauto.
      destruct (negb (truthy t)); cbn; eauto.
      destruct (JSON_parse t); cbn; eauto.
    + destruct (generateContent _) as [t|e]; reflexivity.
    + destruct (generateContent _) as [[t|]|e]; try reflexivity.
      destruct (negb (truthy t)); try reflexivity.
      destruct (JSON_parse t); reflexivity.
    + intros _ Hfail.
      match goal with
      | |- context [generateContent ?q] =>
          pose proof (Hfail q) as Hq;
          destruct (generateContent q) as [t|e]
      end.
      * discriminate Hq.
      * eexists. split; reflexivity.
  - split; [|split; [|split; [|split]]]; cbn; eauto.
    intros H. discriminate H.
Qed.

(** X18: the two service functions never reject, whatever the client
    library and [JSON.parse] do: every failure is turned into a returned
    text or a returned list of tips.  Each makes at most one request, and
    none at all without an API key.  When the request fails, the advice is
    the three stock tips. *)
Theorem ai_service_never_rejects
    (Exn Value : Type)
    (generateContent : GenRequest -> outcome Exn (option JSString))
    (JSON_parse : JSString -> outcome Exn Value)
    (apiKey : option JSString) (services : list JSString)
    (clientInfo : JSString) :
  let summary :=
    analyzeLegalServices generateContent apiKey services clientInfo in
  let advice :=
    generateLegalAdvice generateContent JSON_parse apiKey services in
  (exists text, fst summary = Returned text)
  /\ (exists a, fst advice = Returned a)
  /\ length (snd summary) = (if hasKey apiKey then 1 else 0)
  /\ length (snd advice) = (if hasKey apiKey then 1 else 0)
  /\ (hasKey apiKey = true ->
      (forall r, succeeded (generateContent r) = false) ->
      exists tips,
        fst advice = Returned (TipsObject tips) /\ length tips = 3).
Proof.
  apply ai_service_returns.
Qed.

(** X19: because the summary service never rejects, the summary button
    always finishes: with a non-empty cart the handler returns, the
    loading flag is off again and a summary text is set; with an empty
    cart it changes nothing.  The handler itself has no [catch]: a callee
    that did reject would leave the loading flag on. *)
Theorem summary_button_always_finishes
    (Exn Handle number : Type)
    (generateContent : GenRequest -> outcome Exn (option JSString))
    (apiKey : option JSString) (e : Exn)
    (c : Component.t Handle number) :
  let service names info :=
    fst (analyzeLegalServices generateContent apiKey names info) in
  let r := handleAiAnalyze service c in
  fst r = Returned tt
  /\ (cart (Component.app c) = [] -> snd r = c)
  /\ (cart (Component.app c) <> [] ->
      Component.isAiLoading (snd r) = false
      /\ Component.isAiLoading
           (snd (handleAiAnalyze (fun _ _ => Thrown e) c)) = true
      /\ fst (handleAiAnalyze (fun _ _ => Thrown e) c) = Thrown e).
Proof.
  cbv zeta. unfold handleAiAnalyze.
  destruct (cart (Component.app c)) as [|i l] eqn:Hc; cbn [length Nat.eqb].
  - split; [reflexivity|]. split; [reflexivity|]. intros Hne. congruence.
  - cbn [setIsAiLoading Component.app]. rewrite Hc.
    match goal with
    | |- context [analyzeLegalServices ?g ?k ?n ?i] =>
        destruct (@ai_service_returns Exn unit g
                    (fun _ => Returned tt) k n i) as ((text & Ht) & _)
    end.
    rewrite Ht. cbn.
    split; [reflexivity|]. split; [discriminate|]. intros _.
    repeat split.
Qed.

(** X20: the tips button always turns its loading flag off again,
    whatever the service does.  It opens the tips dialog only together
    with a usable list of tips, and otherwise shows exactly
    one alert.  With the advice service of this repository the alert for a
    failed call is never shown, since that service does not reject; and
    without an API key the dialog opens with the one tip that asks to
    contact the administrator. *)
Theorem tips_button_outcomes
    (Exn Value Handle number : Type)
    (generateContent : GenRequest -> outcome Exn (option JSString))
    (JSON_parse : JSString -> outcome Exn Value)
    (tipsOf : Value -> option (list JSString))
    (advise : list JSString -> outcome Exn (Advice Value))
    (apiKey : option JSString) (c : Component.t Handle number) :
  cart (Component.app c) <> [] ->
  let service names :=
    fst (generateLegalAdvice generateContent JSON_parse apiKey names) in
  let any := handleGenerateTips tipsOf advise c in
  let own := handleGenerateTips tipsOf service c in
  Component.isTipsLoading any = false
  /\ ((Component.isTipsModalOpen any = true
       /\ Component.shown any = Component.shown c)
      \/ (Component.isTipsModalOpen any = Component.isTipsModalOpen c
          /\ Component.legalTips any = Component.legalTips c
          /\ exists msg, Component.shown any = Component.shown c ++ [msg]))
  /\ ~ In (lit "Ralat semasa menjana tips.")
         (skipn (length (Component.shown c)) (Component.shown own))
  /\ (hasKey apiKey = false ->
      Component.isTipsModalOpen own = true
      /\ Component.legalTips own
         = [lit "Sila hubungi pentadbir sistem untuk mengaktifkan fungsi AI."]).
Proof.
  intros Hcart. cbv zeta. unfold handleGenerateTips.
  destruct (cart (Component.app c)) as [|i l] eqn:Hc; [congruence|].
  cbn [length Nat.eqb setIsTipsLoading Component.app].
  rewrite Hc.
  split; [|split; [|split]].
  - destruct (advise _) as [a|e]; [destruct (usableTips tipsOf a)|];
      reflexivity.
  - destruct (advise _) as [a|e]; [destruct (usableTips tipsOf a)|]; cbn.
    + left. split; reflexivity.
    + right. repeat split. eauto.
    + right. repeat split. eauto.
  - match goal with
    | |- context [generateLegalAdvice ?g ?p ?k ?n] =>
        destruct (@ai_service_returns Exn Value g p k n [])
          as (_ & (a & Ha) & _)
    end.
    rewrite Ha. destruct (usableTips tipsOf a); cbn.
    + rewrite skipn_all. intros [].
    + rewrite skipn_app, skipn_all, Nat.sub_diag. cbn.
      intros [H|[]]. discriminate H.
  - intros Hkey. unfold generateLegalAdvice. rewrite Hkey. cbn.
    split; reflexivity.
Qed.

Lemma tips_button_outcomes_witness :
  cart (Component.app sample_component) <> []
  /\ Component.isTipsLoading
       (handleGenerateTips (fun _ : unit => None)
          (fun _ => @Thrown unit (Advice unit) tt) sample_component)
     = false.
Proof.
  assert (H : cart (Component.app sample_component) <> [])
    by discriminate.
  split; [exact H|].
  exact (proj1 (@tips_button_outcomes unit unit unit nat
                  (fun _ => Thrown tt) (fun _ => Thrown tt)
                  (fun _ : unit => None)
                  (fun _ => @Thrown unit (Advice unit) tt) None
                  sample_component H)).
Defined.

(** ** Contact details on the receipt *)

(** X21: with [includePhone] switched off a customer receipt does not
    depend on the customer's phone number, and with [includeAddress]
    switched off it does not depend on the address: on every transport and
    from every world the whole run is the same whatever the field holds. *)
Theorem hidden_contact_details_are_not_printed
    (Buf Handle T Exn number : Type) (U : bluetoothUtils Buf)
    (sdp : Handle -> Buf -> T -> outcome Exn unit * T)
    (exnToString : Exn -> JSString) (toFixed2 : number -> JSString)
    (plus : number -> number -> number) (zero : number) (isTest : bool)
    (st : AppState Handle number) (w : World T)
    (phone' address' : JSString) :
  (includePhone (printerSettings st) = false ->
   printBluetoothDirect U sdp exnToString toFixed2 plus zero isTest
     (with_phone st phone') w
   = printBluetoothDirect U sdp exnToString toFixed2 plus zero isTest st w)
  /\ (includeAddress (printerSettings st) = false ->
      printBluetoothDirect U sdp exnToString toFixed2 plus zero isTest
        (with_address st address') w
      = printBluetoothDirect U sdp exnToString toFixed2 plus zero isTest
          st w).
Proof.
  split; intros Hoff.
  - assert (Hrec : receipt U toFixed2 plus zero isTest (with_phone st phone')
                   = receipt U toFixed2 plus zero isTest st).
    { unfold receipt, customerInfo.
      cbn [with_phone printerSettings clientForm ClientForm.phone
             ClientForm.date ClientForm.name ClientForm.address].
      rewrite Hoff, !andb_false_r. reflexivity. }
    unfold printBluetoothDirect. cbn [with_phone bt].
    destruct (characteristic (bt st)); [|reflexivity].
    unfold tryCatchFinally. now rewrite !printBody_sequence, Hrec.
  - assert (Hrec : receipt U toFixed2 plus zero isTest
                     (with_address st address')
                   = receipt U toFixed2 plus zero isTest st).
    { unfold receipt, customerInfo.
      cbn [with_address printerSettings clientForm ClientForm.phone
             ClientForm.date ClientForm.name ClientForm.address].
      rewrite Hoff, !andb_false_r. reflexivity. }
    unfold printBluetoothDirect. cbn [with_address bt].
    destruct (characteristic (bt st)); [|reflexivity].
    unfold tryCatchFinally. now rewrite !printBody_sequence, Hrec.
Qed.

Lemma hidden_contact_details_are_not_printed_witness :
  includePhone (printerSettings discreet_state) = false
  /\ emitted sample_literals ringgit Nat.add 0 false
       (with_phone discreet_state (lit "0199999999"))
     = emitted sample_literals ringgit Nat.add 0 false discreet_state.
Proof.
  split; [reflexivity|].
  unfold emitted.
  now rewrite (proj1 (@hidden_contact_details_are_not_printed _ _ _ _ _
                        sample_literals (@recorder bytes unit unit)
                        (fun _ : unit => []) ringgit Nat.add 0 false
                        discreet_state (fresh []) (lit "0199999999") [])
                 eq_refl).
Defined.
